(** * hypercorn.asgi.wsproto: the ASGI websocket adapter

    A shallow embedding of [hypercorn/asgi/wsproto.py]: the lifecycle
    enumeration [ASGIWebsocketState], the inbound [WebsocketBuffer] and the
    methods of [WebsocketMixin] that translate application instructions into
    wsproto events.

    Python values are dynamically typed, so the messages exchanged with the
    application are dictionaries ([gmap string pyval]) over a small universe
    of Python values.  A [str] is a [string] (code points below 256), a
    [bytes] object is a [list byte], an [int] is a [Z]. *)

From Stdlib Require Import ZArith Lia Bool List Ascii String.
From Stdlib.Strings Require Import Byte.
From stdpp Require Import base option list strings gmap.

Set Warnings "-register-all".
Local Open Scope Z_scope.

(** ** Python values *)

Inductive pyval : Type :=
| VNone
| VBool (b : bool)
| VInt (n : Z)
| VStr (s : string)
| VBytes (b : list byte)
| VList (items : list pyval).

Abbreviation dict := (gmap string pyval).

(** ** The lifecycle enumeration *)

Inductive ASGIWebsocketState : Set :=
| HANDSHAKE
| CONNECTED
| RESPONSE
| CLOSED
| HTTPCLOSED.

Definition state_eqb (a b : ASGIWebsocketState) : bool :=
  match a, b with
  | HANDSHAKE, HANDSHAKE | CONNECTED, CONNECTED | RESPONSE, RESPONSE
  | CLOSED, CLOSED | HTTPCLOSED, HTTPCLOSED => true
  | _, _ => false
  end.

(** [str(state)] of an [Enum] member. *)
Definition str_of_state (s : ASGIWebsocketState) : string :=
  match s with
  | HANDSHAKE => "ASGIWebsocketState.HANDSHAKE"
  | CONNECTED => "ASGIWebsocketState.CONNECTED"
  | RESPONSE => "ASGIWebsocketState.RESPONSE"
  | CLOSED => "ASGIWebsocketState.CLOSED"
  | HTTPCLOSED => "ASGIWebsocketState.HTTPCLOSED"
  end.

(** ** Exceptions

    [UnexpectedMessage] keeps the two constructor arguments; the text given
    to [Exception.__init__] is [UnexpectedMessage_text]. *)

(** The exceptions that are neither an [Exception] nor a cancellation:
    no [except] clause of this module catches them. *)
Inductive fatal : Set := SystemExit | KeyboardInterrupt | GeneratorExit.

Inductive exn : Type :=
| KeyError (key : string)
| TypeError
| ValueError
| OverflowError
| UnicodeEncodeError
| FrameTooLarge
| UnexpectedMessage (state : ASGIWebsocketState) (message_type : pyval)
| Fatal (x : fatal).

Definition UnexpectedMessage_text (state : ASGIWebsocketState) (message_type : string) : string :=
  "Unexpected message type, " +:+ message_type +:+ " given the state " +:+ str_of_state state.

Inductive result (A : Type) : Type :=
| Ok (a : A)
| Raise (e : exn).
Arguments Ok {A} a.
Arguments Raise {A} e.

(** ** wsproto events *)

Inductive Extension : Set := PerMessageDeflate.

(** [wsproto.events.Message] and its two subclasses. *)
Inductive Message : Type :=
| TextMessage (data : string)
| BytesMessage (data : list byte).

Inductive Event : Type :=
| AcceptConnection (extensions : list Extension)
| RejectConnection (status_code : Z) (headers : list (list byte * list byte)) (has_body : bool)
| RejectData (data : list byte) (body_finished : bool)
| CloseConnection (code : Z)
| MessageEvent (m : Message).

(** [wsproto.frame_protocol.CloseReason.ABNORMAL_CLOSURE]. *)
Definition ABNORMAL_CLOSURE : Z := 1006.

(** ** WebsocketBuffer *)

Inductive content : Type :=
| CText (s : string)
| CBytes (b : list byte).

Record WebsocketBuffer : Type := mkBuffer {
  value : option content;
  max_length : Z
}.

Definition WebsocketBuffer_init (max_length : Z) : WebsocketBuffer :=
  {| value := None; max_length := max_length |}.

Definition content_len (c : content) : nat :=
  match c with
  | CText s => String.length s
  | CBytes b => List.length b
  end.

(** [self.value += event.data]: [str + bytes] and [bytes + str] raise
    [TypeError] and leave the left operand as it was. *)
Definition content_add (c : content) (event : Message) : result content :=
  match c, event with
  | CText s, TextMessage d => Ok (CText (s +:+ d))
  | CBytes b, BytesMessage d => Ok (CBytes (b ++ d))
  | _, _ => Raise TypeError
  end.

Definition extend (event : Message) (self : WebsocketBuffer) : WebsocketBuffer * result unit :=
  let v0 :=
    match value self with
    | None => match event with TextMessage _ => CText "" | BytesMessage _ => CBytes [] end
    | Some c => c
    end in
  match content_add v0 event with
  | Raise e => ({| value := Some v0; max_length := max_length self |}, Raise e)
  | Ok v1 =>
      let self' := {| value := Some v1; max_length := max_length self |} in
      if Z.of_nat (content_len v1) >? max_length self
      then (self', Raise FrameTooLarge)
      else (self', Ok tt)
  end.

Definition clear (self : WebsocketBuffer) : WebsocketBuffer :=
  {| value := None; max_length := max_length self |}.

Definition to_message (self : WebsocketBuffer) : dict :=
  {[ "type" := VStr "websocket.receive";
     "bytes" := match value self with Some (CBytes b) => VBytes b | _ => VNone end;
     "text" := match value self with Some (CText s) => VStr s | _ => VNone end ]}.

(** A run of [extend] calls, one per wire fragment, stopped by the first
    exception. *)
Fixpoint extend_all (events : list Message) (self : WebsocketBuffer) : WebsocketBuffer * result unit :=
  match events with
  | [] => (self, Ok tt)
  | e :: rest =>
      match extend e self with
      | (self', Ok _) => extend_all rest self'
      | r => r
      end
  end.

Definition is_text (m : Message) : bool :=
  match m with TextMessage _ => true | BytesMessage _ => false end.

Definition message_len (m : Message) : nat :=
  match m with
  | TextMessage d => String.length d
  | BytesMessage d => List.length d
  end.

Definition total_len (events : list Message) : nat :=
  list_sum (map message_len events).

Definition same_typed (events : list Message) : Prop :=
  forallb is_text events = true \/ forallb (fun m => negb (is_text m)) events = true.

Definition text_of (m : Message) : string :=
  match m with TextMessage d => d | BytesMessage _ => "" end.

Definition bytes_of (m : Message) : list byte :=
  match m with TextMessage _ => [] | BytesMessage d => d end.

Definition join_text (parts : list string) : string :=
  fold_right String.append "" parts.

(** What a buffer that started empty holds after the fragments [events]. *)
Definition joined (events : list Message) : option content :=
  match events with
  | [] => None
  | e :: _ =>
      if is_text e
      then Some (CText (join_text (map text_of events)))
      else Some (CBytes (List.concat (map bytes_of events)))
  end.

Definition content_of (m : Message) : content :=
  match m with
  | TextMessage d => CText d
  | BytesMessage d => CBytes d
  end.

Definition value_len (v : option content) : nat :=
  match v with None => 0%nat | Some c => content_len c end.

(** ** Python built-ins used by the mixin *)

(** [bool(v)]. *)
Definition truthy (v : pyval) : bool :=
  match v with
  | VNone => false
  | VBool b => b
  | VInt n => negb (n =? 0)
  | VStr s => negb (String.eqb s "")
  | VBytes b => match b with [] => false | _ => true end
  | VList l => match l with [] => false | _ => true end
  end.

(** [d[key]]. *)
Definition getitem (d : dict) (key : string) : result pyval :=
  match d !! key with
  | Some v => Ok v
  | None => Raise (KeyError key)
  end.

(** [d.get(key, dflt)]. *)
Definition dict_get (d : dict) (key : string) (dflt : pyval) : pyval :=
  default dflt (d !! key).

Definition is_None (v : pyval) : bool :=
  match v with VNone => true | _ => false end.

(** [v == s] for a [str] literal [s]: only a [str] compares equal to one. *)
Definition eq_str (v : pyval) (s : string) : bool :=
  match v with VStr s' => String.eqb s' s | _ => false end.

Definition chars (s : string) : list pyval :=
  map (fun c => VStr (String c EmptyString)) (list_ascii_of_string s).

(** [iter(v)], run to the end. *)
Definition py_iter (v : pyval) : result (list pyval) :=
  match v with
  | VList l => Ok l
  | VStr s => Ok (chars s)
  | VBytes b => Ok (map (fun x => VInt (Z.of_N (Byte.to_N x))) b)
  | VNone | VBool _ | VInt _ => Raise TypeError
  end.

(** [a, b = v]. *)
Definition unpack2 (v : pyval) : result (pyval * pyval) :=
  match py_iter v with
  | Raise e => Raise e
  | Ok [a; b] => Ok (a, b)
  | Ok _ => Raise ValueError
  end.

(** One element of the iterable given to [bytes(...)]: an integer in
    [range(256)]. *)
Definition byte_of_item (v : pyval) : result byte :=
  let of_int (n : Z) :=
    if (0 <=? n) && (n <? 256)
    then match Byte.of_N (Z.to_N n) with Some b => Ok b | None => Raise ValueError end
    else Raise ValueError in
  match v with
  | VInt n => of_int n
  | VBool b => of_int (if b then 1 else 0)
  | _ => Raise TypeError
  end.

Fixpoint bytes_of_items (l : list pyval) : result (list byte) :=
  match l with
  | [] => Ok []
  | v :: rest =>
      match byte_of_item v with
      | Raise e => Raise e
      | Ok b =>
          match bytes_of_items rest with
          | Raise e => Raise e
          | Ok bs => Ok (b :: bs)
          end
      end
  end.

(** [sys.maxsize] of a 64-bit build. *)
Definition sys_maxsize : Z := 2 ^ 63 - 1.

(** [bytes(v)].  An [int] gives that many zero bytes: a negative count is
    a [ValueError], one above [sys.maxsize] an [OverflowError] (running out
    of memory below that bound is not modelled). *)
Definition py_bytes (v : pyval) : result (list byte) :=
  let zeros (n : Z) :=
    if n <? 0 then Raise ValueError
    else if sys_maxsize <? n then Raise OverflowError
    else Ok (repeat x00%byte (Z.to_nat n)) in
  match v with
  | VBytes b => Ok b
  | VInt n => zeros n
  | VBool b => zeros (if b then 1 else 0)
  | VList l => bytes_of_items l
  | VStr _ | VNone => Raise TypeError
  end.

(** The bytes removed by [bytes.strip()]: space, tab, LF, VT, FF, CR. *)
Definition is_space (b : byte) : bool :=
  let n := Byte.to_N b in
  ((n =? 32) || ((9 <=? n) && (n <=? 13)))%N.

Fixpoint lstrip (b : list byte) : list byte :=
  match b with
  | [] => []
  | x :: rest => if is_space x then lstrip rest else b
  end.

Definition strip (b : list byte) : list byte :=
  rev (lstrip (rev (lstrip b))).

(** [s.encode("ascii")]. *)
Definition is_ascii (c : ascii) : bool := (N_of_ascii c <? 128)%N.

(** The bytes literal [b"..."] with the characters of [s]. *)
Definition ascii_bytes (s : string) : list byte :=
  map byte_of_ascii (list_ascii_of_string s).

Definition encode_ascii (s : string) : result (list byte) :=
  if forallb is_ascii (list_ascii_of_string s)
  then Ok (ascii_bytes s)
  else Raise UnicodeEncodeError.

(** [s.encode()]: UTF-8, for code points below 256. *)
Definition utf8_char (c : ascii) : list byte :=
  let n := N_of_ascii c in
  if (n <? 128)%N then [byte_of_ascii c]
  else
    match Byte.of_N (192 + N.shiftr n 6), Byte.of_N (128 + N.land n 63) with
    | Some hi, Some lo => [hi; lo]
    | _, _ => []
    end.

Definition encode_utf8 (s : string) : list byte :=
  List.concat (map utf8_char (list_ascii_of_string s)).

(** [sep in s] for a one-character [sep]. *)
Fixpoint has_char (sep : ascii) (s : string) : bool :=
  match s with
  | EmptyString => false
  | String c rest => Ascii.eqb c sep || has_char sep rest
  end.

(** [s.partition(sep)] for a one-character separator. *)
Fixpoint str_partition (sep : ascii) (s : string) : string * string * string :=
  match s with
  | EmptyString => ("", "", "")
  | String c rest =>
      if Ascii.eqb c sep then ("", String sep "", rest)
      else
        match str_partition sep rest with
        | (before, found, after) => (String c before, found, after)
        end
  end.

(** What the module takes from outside this file: the built-in [int]
    applied to a [str] or a [bytes] ([None] is [ValueError]),
    [urllib.parse.unquote], [hypercorn.utils.suppress_body], and the two
    members every class using the mixin provides, [scheme] and
    [response_headers]. *)
Class Env : Type := {
  int_of_str : string -> option Z;
  int_of_bytes : list byte -> option Z;
  unquote : string -> string;
  suppress_body : string -> pyval -> result bool;
  scheme : string;
  response_headers : list (list byte * list byte)
}.

(** [int(v)]. *)
Definition py_int `{E : Env} (v : pyval) : result Z :=
  let parsed (o : option Z) :=
    match o with Some n => Ok n | None => Raise ValueError end in
  match v with
  | VInt n => Ok n
  | VBool b => Ok (if b then 1 else 0)
  | VStr s => parsed (int_of_str s)
  | VBytes b => parsed (int_of_bytes b)
  | VNone | VList _ => Raise TypeError
  end.

(** ** WebsocketMixin *)

(** [wsproto.events.Request], the fields the mixin reads. *)
Record Request : Type := {
  target : string;
  host : string;
  extra_headers : list (list byte * list byte);
  subprotocols : list string
}.

(** The dictionary stored in [self.scope]. *)
Record Scope : Type := {
  scope_type : string;
  scope_asgi_version : string;
  scope_scheme : string;
  scope_path : string;
  scope_query_string : list byte;
  scope_root_path : string;
  scope_headers : list (list byte * list byte);
  scope_client : string * Z;
  scope_server : string * Z;
  scope_subprotocols : list string;
  scope_extensions : list string
}.

(** The object the mixin is part of.  [asend] and [asgi_put] are left to
    the classes using the mixin; here they record what they are given.
    The first seven fields are the object's
    attributes ([root_path] and [error_logger] belong to [config]; the
    latter says whether an error logger is configured).  The other four
    record what the object did to its collaborators, oldest first: events
    given to [asend], messages given to [asgi_put], calls of
    [config.access_logger.access] (scope and response; the elapsed time is
    left out) and of [config.error_logger.exception]. *)
Record WebsocketMixin : Type := {
  state : ASGIWebsocketState;
  response : option dict;
  scope : Scope;
  client : string * Z;
  server : string * Z;
  root_path : string;
  error_logger : bool;
  sent : list Event;
  app_queue : list dict;
  access_log : list (Scope * dict);
  error_log : list string
}.

(** The object after an assignment to [self.state], [self.response] or
    [self.scope]. *)
Definition with_state (s : ASGIWebsocketState) (self : WebsocketMixin) : WebsocketMixin :=
  {| state := s; response := response self; scope := scope self;
     client := client self; server := server self; root_path := root_path self;
     error_logger := error_logger self; sent := sent self;
     app_queue := app_queue self; access_log := access_log self;
     error_log := error_log self |}.

Definition with_response (r : option dict) (self : WebsocketMixin) : WebsocketMixin :=
  {| state := state self; response := r; scope := scope self;
     client := client self; server := server self; root_path := root_path self;
     error_logger := error_logger self; sent := sent self;
     app_queue := app_queue self; access_log := access_log self;
     error_log := error_log self |}.

Definition with_scope (sc : Scope) (self : WebsocketMixin) : WebsocketMixin :=
  {| state := state self; response := response self; scope := sc;
     client := client self; server := server self; root_path := root_path self;
     error_logger := error_logger self; sent := sent self;
     app_queue := app_queue self; access_log := access_log self;
     error_log := error_log self |}.

(** The object after a call of [asend], of [asgi_put], of the access
    logger and of the error logger (which logs only when configured). *)
Definition with_sent (event : Event) (self : WebsocketMixin) : WebsocketMixin :=
  {| state := state self; response := response self; scope := scope self;
     client := client self; server := server self; root_path := root_path self;
     error_logger := error_logger self; sent := sent self ++ [event];
     app_queue := app_queue self; access_log := access_log self;
     error_log := error_log self |}.

Definition with_put (message : dict) (self : WebsocketMixin) : WebsocketMixin :=
  {| state := state self; response := response self; scope := scope self;
     client := client self; server := server self; root_path := root_path self;
     error_logger := error_logger self; sent := sent self;
     app_queue := app_queue self ++ [message]; access_log := access_log self;
     error_log := error_log self |}.

Definition with_access (resp : dict) (self : WebsocketMixin) : WebsocketMixin :=
  {| state := state self; response := response self; scope := scope self;
     client := client self; server := server self; root_path := root_path self;
     error_logger := error_logger self; sent := sent self;
     app_queue := app_queue self;
     access_log := access_log self ++ [(scope self, resp)];
     error_log := error_log self |}.

Definition with_error (text : string) (self : WebsocketMixin) : WebsocketMixin :=
  {| state := state self; response := response self; scope := scope self;
     client := client self; server := server self; root_path := root_path self;
     error_logger := error_logger self; sent := sent self;
     app_queue := app_queue self; access_log := access_log self;
     error_log := if error_logger self then error_log self ++ [text] else error_log self |}.

(** A method body: it runs on the object, may change it, and returns or
    raises.  What was changed before an exception stays changed. *)
Definition M (A : Type) : Type := WebsocketMixin -> WebsocketMixin * result A.

#[export] Instance M_ret : MRet M := fun A a self => (self, Ok a).

#[export] Instance M_bind : MBind M := fun A B f c self =>
  match c self with
  | (self', Ok a) => f a self'
  | (self', Raise e) => (self', Raise e)
  end.

Definition raise {A : Type} (e : exn) : M A := fun self => (self, Raise e).

Definition lift {A : Type} (r : result A) : M A := fun self => (self, r).

Definition get_state : M ASGIWebsocketState := fun self => (self, Ok (state self)).

Definition get_response : M (option dict) := fun self => (self, Ok (response self)).

Definition set_state (s : ASGIWebsocketState) : M unit := fun self =>
  (with_state s self, Ok tt).

Definition set_response (r : option dict) : M unit := fun self =>
  (with_response r self, Ok tt).

Definition set_scope (sc : Scope) : M unit := fun self =>
  (with_scope sc self, Ok tt).

Definition asend (event : Event) : M unit := fun self =>
  (with_sent event self, Ok tt).

Definition asgi_put (message : dict) : M unit := fun self =>
  (with_put message self, Ok tt).

(** [self.config.access_logger.access(self.scope, response, elapsed)]. *)
Definition access (resp : dict) : M unit := fun self =>
  (with_access resp self, Ok tt).

(** [if self.config.error_logger is not None: ....exception(text)]. *)
Definition log_exception (text : string) : M unit := fun self =>
  (with_error text self, Ok tt).

Definition when (b : bool) (c : M unit) : M unit :=
  if b then c else mret tt.

Definition status_only (status : Z) : dict :=
  {[ "status" := VInt status; "headers" := VList [] ]}.

Section Mixin.
Context `{E : Env}.

Definition send_http_error (status : Z) : M unit :=
  asend (RejectConnection status response_headers false);;
  access (status_only status).

(** One step of the comprehension over [self.response["headers"]]. *)
Definition header_pair (item : pyval) : result (list byte * list byte) :=
  match unpack2 item with
  | Raise e => Raise e
  | Ok (key, val) =>
      match py_bytes key with
      | Raise e => Raise e
      | Ok k =>
          match py_bytes val with
          | Raise e => Raise e
          | Ok v => Ok (strip k, strip v)
          end
      end
  end.

Fixpoint header_pairs (items : list pyval) : result (list (list byte * list byte)) :=
  match items with
  | [] => Ok []
  | item :: rest =>
      match header_pair item with
      | Raise e => Raise e
      | Ok p =>
          match header_pairs rest with
          | Raise e => Raise e
          | Ok ps => Ok (p :: ps)
          end
      end
  end.

(** [self.response[key]]: subscripting [None] is a [TypeError]. *)
Definition response_item (key : string) : M pyval :=
  r ← get_response;
  match r with
  | None => raise TypeError
  | Some d => lift (getitem d key)
  end.

Definition _asgi_send_rejection (message : dict) : M unit :=
  status ← response_item "status";
  body_suppressed ← lift (suppress_body "GET" status);
  st ← get_state;
  when (state_eqb st HANDSHAKE)
    (raw ← response_item "headers";
     items ← lift (py_iter raw);
     headers ← lift (header_pairs items);
     status' ← response_item "status";
     code ← lift (py_int status');
     asend (RejectConnection code (headers ++ response_headers) (negb body_suppressed));;
     set_state RESPONSE);;
  when (negb body_suppressed)
    (data ← lift (py_bytes (dict_get message "body" (VBytes [])));
     asend (RejectData data (negb (truthy (dict_get message "more_body" (VBool false))))));;
  when (negb (truthy (dict_get message "more_body" (VBool false))))
    (asgi_put {[ "type" := VStr "websocket.disconnect" ]};;
     set_state HTTPCLOSED).

Definition asgi_send (message : dict) : M unit :=
  ty ← lift (getitem message "type");
  st ← get_state;
  if eq_str ty "websocket.accept" && state_eqb st HANDSHAKE then
    asend (AcceptConnection [PerMessageDeflate]);;
    set_state CONNECTED;;
    access (status_only 101)
  else if eq_str ty "websocket.http.response.start" && state_eqb st HANDSHAKE then
    set_response (Some message);;
    access message
  else if eq_str ty "websocket.http.response.body"
          && (state_eqb st HANDSHAKE || state_eqb st RESPONSE) then
    _asgi_send_rejection message
  else if eq_str ty "websocket.send" && state_eqb st CONNECTED then
    if negb (is_None (dict_get message "bytes" VNone)) then
      raw ← lift (getitem message "bytes");
      data ← lift (py_bytes raw);
      asend (MessageEvent (BytesMessage data))
    else
      text ← lift (getitem message "text");
      match text with
      | VStr s => asend (MessageEvent (TextMessage s))
      | _ => raise TypeError
      end
  else if eq_str ty "websocket.close" && state_eqb st HANDSHAKE then
    send_http_error 403;;
    set_state HTTPCLOSED
  else if eq_str ty "websocket.close" then
    raw ← lift (getitem message "code");
    code ← lift (py_int raw);
    asend (CloseConnection code);;
    set_state CLOSED
  else
    raise (UnexpectedMessage st ty).

End Mixin.

(** ** The application

    The application is arbitrary code that is handed [asgi_send]: it sends
    a message, sees whether the call returned or raised, and goes on, until
    it returns, raises an [Exception] (possibly by letting one of
    [asgi_send] through), is cancelled, or raises an exception that is
    neither ([AppAbort]).

    Two dictionaries are shared with the application.  [self.response =
    message] keeps the application's own dictionary, and [self.app(self.scope)]
    hands the adapter's scope over; the application can change either
    between two calls of [asgi_send], and the adapter reads them again each
    time.  [AppSetResponse f] is a change of the dictionary stored in
    [self.response] (it does nothing while [self.response] is [None]),
    [AppSetScope f] a change of the scope.

    [asgi_receive] is left to the classes using the mixin and touches
    nothing modelled here. *)
Inductive App : Type :=
| AppReturn
| AppRaise
| AppCancelled
| AppAbort (x : fatal)
| AppSend (message : dict) (k : result unit -> App)
| AppSetResponse (f : dict -> dict) (k : App)
| AppSetScope (f : Scope -> Scope) (k : App).

Inductive outcome : Set := Returned | Raised | Cancelled | Aborted (x : fatal).

Section Driver.
Context `{E : Env}.

(** [await asgi_instance(self.asgi_receive, self.asgi_send)]. *)
Fixpoint run_app (a : App) (self : WebsocketMixin) : WebsocketMixin * outcome :=
  match a with
  | AppReturn => (self, Returned)
  | AppRaise => (self, Raised)
  | AppCancelled => (self, Cancelled)
  | AppAbort x => (self, Aborted x)
  | AppSend message k =>
      match asgi_send message self with
      | (self', r) => run_app (k r) self'
      end
  | AppSetResponse f k => run_app k (with_response (f <$> response self) self)
  | AppSetScope f k => run_app k (with_scope (f (scope self)) self)
  end.

(** The [except] clauses of [handle_asgi_app]; what neither catches goes
    on to the caller. *)
Definition on_outcome (o : outcome) : M unit :=
  match o with
  | Returned => mret tt
  | Cancelled => mret tt
  | Aborted x => raise (Fatal x)
  | Raised =>
      log_exception "Error in ASGI Framework";;
      st ← get_state;
      when (state_eqb st CONNECTED)
        (asend (CloseConnection ABNORMAL_CLOSURE);;
         set_state CLOSED)
  end.

(** The statements of [handle_asgi_app] after the [try] statement. *)
Definition unresolved_handshake : M unit :=
  st ← get_state;
  when (state_eqb st HANDSHAKE)
    (send_http_error 500;;
     set_state HTTPCLOSED).

Definition handle_asgi_app (app : Scope -> App) : M unit :=
  asgi_put {[ "type" := VStr "websocket.connect" ]};;
  sc ← (fun self => (self, Ok (scope self)));
  o ← (fun self => match run_app (app sc) self with (self', o) => (self', Ok o) end);
  on_outcome o;;
  unresolved_handshake.

Definition build_scope (event : Request) (self : WebsocketMixin) : result Scope :=
  match str_partition "?" (target event) with
  | (path, _, query_string) =>
      let headers := (ascii_bytes "host", encode_utf8 (host event)) :: extra_headers event in
      match encode_ascii query_string with
      | Raise e => Raise e
      | Ok q =>
          Ok {| scope_type := "websocket";
                scope_asgi_version := "2.0";
                scope_scheme := scheme;
                scope_path := unquote path;
                scope_query_string := q;
                scope_root_path := root_path self;
                scope_headers := headers;
                scope_client := client self;
                scope_server := server self;
                scope_subprotocols := subprotocols event;
                scope_extensions := ["websocket.http.response"] |}
      end
  end.

Definition handle_websocket (app : Scope -> App) (event : Request) : M unit :=
  sc ← (fun self => (self, build_scope event self));
  set_scope sc;;
  handle_asgi_app app.

End Driver.

(** ** Concrete surroundings for the examples *)

Definition digit_of (c : ascii) : option Z :=
  let n := N_of_ascii c in
  if ((48 <=? n) && (n <=? 57))%N then Some (Z.of_N n - 48) else None.

Fixpoint decimal (acc : Z) (s : list ascii) : option Z :=
  match s with
  | [] => Some acc
  | c :: rest =>
      match digit_of c with
      | Some d => decimal (10 * acc + d) rest
      | None => None
      end
  end.

(** Plain runs of decimal digits, which [int] reads as written. *)
Definition plain_decimal (s : list ascii) : option Z :=
  match s with [] => None | _ => decimal 0 s end.

Definition hex_of (c : ascii) : option N :=
  let n := N_of_ascii c in
  if ((48 <=? n) && (n <=? 57))%N then Some (n - 48)%N
  else if ((65 <=? n) && (n <=? 70))%N then Some (n - 55)%N
  else if ((97 <=? n) && (n <=? 102))%N then Some (n - 87)%N
  else None.

(** Percent-decoding of escapes below [%80]; other text is kept. *)
Fixpoint unquote_low (s : string) : string :=
  match s with
  | String "%" (String a (String b rest as tl) as tl') =>
      match hex_of a, hex_of b with
      | Some h, Some l =>
          if (h <? 8)%N then String (ascii_of_N (16 * h + l)) (unquote_low rest)
          else String "%" (unquote_low tl')
      | _, _ => String "%" (unquote_low tl')
      end
  | String c rest => String c (unquote_low rest)
  | EmptyString => EmptyString
  end.

(** A response has no body for the informational statuses and for 204
    and 304. *)
Definition no_body_status (method : string) (status : pyval) : result bool :=
  match status with
  | VInt n => Ok (String.eqb method "HEAD" || ((100 <=? n) && (n <? 200)) || (n =? 204) || (n =? 304))
  | VBool _ => Ok (String.eqb method "HEAD")
  | _ => Raise TypeError
  end.

Definition server_headers : list (list byte * list byte) :=
  [(ascii_bytes "server", ascii_bytes "hypercorn")].

Definition example_env : Env :=
  {| int_of_str := fun s => plain_decimal (list_ascii_of_string s);
     int_of_bytes := fun b => plain_decimal (map ascii_of_byte b);
     unquote := unquote_low;
     suppress_body := no_body_status;
     scheme := "ws";
     response_headers := server_headers |}.

Definition empty_scope : Scope :=
  {| scope_type := ""; scope_asgi_version := ""; scope_scheme := ""; scope_path := "";
     scope_query_string := []; scope_root_path := ""; scope_headers := [];
     scope_client := ("", 0); scope_server := ("", 0); scope_subprotocols := [];
     scope_extensions := [] |}.

(** A connection on which nothing has happened yet. *)
Definition fresh : WebsocketMixin :=
  {| state := HANDSHAKE; response := None; scope := empty_scope;
     client := ("127.0.0.1", 50000); server := ("127.0.0.1", 8000);
     root_path := ""; error_logger := true;
     sent := []; app_queue := []; access_log := []; error_log := [] |}.

Definition in_state (s : ASGIWebsocketState) : WebsocketMixin :=
  {| state := s; response := None; scope := empty_scope;
     client := ("127.0.0.1", 50000); server := ("127.0.0.1", 8000);
     root_path := ""; error_logger := true;
     sent := []; app_queue := []; access_log := []; error_log := [] |}.

Definition msg (type : string) (fields : list (string * pyval)) : dict :=
  <["type" := VStr type]> (list_to_map fields).

Definition chat_request : Request :=
  {| target := "/chat?x=1"; host := "example.com";
     extra_headers := [(ascii_bytes "upgrade", ascii_bytes "websocket")];
     subprotocols := [] |}.

(** The object after an accept instruction taken in [HANDSHAKE]. *)
Definition accepted (self : WebsocketMixin) : WebsocketMixin :=
  with_access (status_only 101)
    (with_state CONNECTED (with_sent (AcceptConnection [PerMessageDeflate]) self)).

(** ** The branches of [asgi_send], one by one *)

Inductive instruction_kind : Set := KAccept | KStart | KBody | KSend | KClose | KOther.

(** The instruction kinds [asgi_send] compares [message["type"]] with. *)
Definition classify (ty : pyval) : instruction_kind :=
  if eq_str ty "websocket.accept" then KAccept
  else if eq_str ty "websocket.http.response.start" then KStart
  else if eq_str ty "websocket.http.response.body" then KBody
  else if eq_str ty "websocket.send" then KSend
  else if eq_str ty "websocket.close" then KClose
  else KOther.

Section Branches.
Context `{E : Env}.

(** The [websocket.send] branch. *)
Definition send_frame (message : dict) (self : WebsocketMixin) : WebsocketMixin * result unit :=
  if negb (is_None (dict_get message "bytes" VNone))
  then
    match message !! "bytes" with
    | None => (self, Raise (KeyError "bytes"))
    | Some raw =>
        match py_bytes raw with
        | Ok data => (with_sent (MessageEvent (BytesMessage data)) self, Ok tt)
        | Raise e => (self, Raise e)
        end
    end
  else
    match message !! "text" with
    | None => (self, Raise (KeyError "text"))
    | Some (VStr s) => (with_sent (MessageEvent (TextMessage s)) self, Ok tt)
    | Some _ => (self, Raise TypeError)
    end.

(** The second [websocket.close] branch. *)
Definition close_with_code (message : dict) (self : WebsocketMixin) : WebsocketMixin * result unit :=
  match message !! "code" with
  | None => (self, Raise (KeyError "code"))
  | Some raw =>
      match py_int raw with
      | Ok code => (with_state CLOSED (with_sent (CloseConnection code) self), Ok tt)
      | Raise e => (self, Raise e)
      end
  end.

(** The object after [send_http_error status]. *)
Definition refused (status : Z) (self : WebsocketMixin) : WebsocketMixin :=
  with_access (status_only status)
    (with_sent (RejectConnection status response_headers false) self).

(** [asgi_send] as a table over the kind and the state. *)
Definition asgi_send_table (message : dict) (self : WebsocketMixin) : WebsocketMixin * result unit :=
  match message !! "type" with
  | None => (self, Raise (KeyError "type"))
  | Some ty =>
      match classify ty, state self with
      | KAccept, HANDSHAKE => (accepted self, Ok tt)
      | KStart, HANDSHAKE => (with_access message (with_response (Some message) self), Ok tt)
      | KBody, (HANDSHAKE | RESPONSE) => _asgi_send_rejection message self
      | KSend, CONNECTED => send_frame message self
      | KClose, HANDSHAKE => (with_state HTTPCLOSED (refused 403 self), Ok tt)
      | KClose, _ => close_with_code message self
      | _, _ => (self, Raise (UnexpectedMessage (state self) ty))
      end
  end.

(** The access-log entries one call of [asgi_send] adds. *)
Definition logged (message : dict) (self : WebsocketMixin) : list (Scope * dict) :=
  match message !! "type" with
  | None => []
  | Some ty =>
      match classify ty, state self with
      | KAccept, HANDSHAKE => [(scope self, status_only 101)]
      | KStart, HANDSHAKE => [(scope self, message)]
      | KClose, HANDSHAKE => [(scope self, status_only 403)]
      | _, _ => []
      end
  end.

End Branches.

(** ** The end of the application, step by step *)

Definition connect_message : dict := {[ "type" := VStr "websocket.connect" ]}.

(** The object after the [except] clauses. *)
Definition after_outcome (o : outcome) (self : WebsocketMixin) : WebsocketMixin :=
  match o with
  | Raised =>
      let self1 := with_error "Error in ASGI Framework" self in
      if state_eqb (state self1) CONNECTED
      then with_state CLOSED (with_sent (CloseConnection ABNORMAL_CLOSURE) self1)
      else self1
  | Returned | Cancelled | Aborted _ => self
  end.

(** The object after the check for a handshake left unresolved. *)
Definition after_handshake_check `{E : Env} (self : WebsocketMixin) : WebsocketMixin :=
  if state_eqb (state self) HANDSHAKE
  then with_state HTTPCLOSED (refused 500 self)
  else self.

(** ** The transition table of the specification

    The rows of the table of section 4.1, as written there: which
    instruction kinds the specification allows in which state. *)
Definition table_row (kind : pyval) (st : ASGIWebsocketState) : bool :=
  match st with
  | HANDSHAKE =>
      eq_str kind "websocket.accept"
      || eq_str kind "websocket.http.response.start"
      || eq_str kind "websocket.http.response.body"
      || eq_str kind "websocket.close"
  | RESPONSE => eq_str kind "websocket.http.response.body"
  | CONNECTED => eq_str kind "websocket.send" || eq_str kind "websocket.close"
  | CLOSED | HTTPCLOSED => false
  end.

(** The order the specification gives to the states:
    [Handshake -> {Connected -> Closed} | {HttpResponse -> HttpClosed}]. *)
Definition spec_order (a b : ASGIWebsocketState) : bool :=
  match a, b with
  | HANDSHAKE, _ => true
  | CONNECTED, (CONNECTED | CLOSED) => true
  | RESPONSE, (RESPONSE | HTTPCLOSED) => true
  | CLOSED, CLOSED => true
  | HTTPCLOSED, HTTPCLOSED => true
  | _, _ => false
  end.

(** The state changes one call of [asgi_send], or the end of the
    application, can make. *)
Definition moves (a b : ASGIWebsocketState) : bool :=
  match a, b with
  | HANDSHAKE, (HANDSHAKE | CONNECTED | RESPONSE | HTTPCLOSED) => true
  | CONNECTED, (CONNECTED | CLOSED) => true
  | RESPONSE, (RESPONSE | HTTPCLOSED | CLOSED) => true
  | HTTPCLOSED, (HTTPCLOSED | CLOSED) => true
  | CLOSED, CLOSED => true
  | _, _ => false
  end.

(** Any number of such changes in a row. *)
Definition reaches (a b : ASGIWebsocketState) : bool :=
  match a, b with
  | HANDSHAKE, CLOSED => true
  | _, _ => moves a b
  end.

Definition terminal (st : ASGIWebsocketState) : bool :=
  match st with
  | CLOSED | HTTPCLOSED => true
  | _ => false
  end.

(** ** Vocabulary for the properties of the buffer and of the events *)

Definition content_is_text (c : content) : bool :=
  match c with CText _ => true | CBytes _ => false end.

(** The data frame that carries a buffer's content back. *)
Definition frame_of (c : content) : Message :=
  match c with
  | CText s => TextMessage s
  | CBytes b => BytesMessage b
  end.

(** ** The rejection path in three parts

    [_asgi_send_rejection] read as its three [if] statements: the head of
    the response, the body chunk, and the end of the response. *)

Definition disconnect_message : dict := {[ "type" := VStr "websocket.disconnect" ]}.

Definition more_body (message : dict) : bool :=
  truthy (dict_get message "more_body" (VBool false)).

Section RejectionParts.
Context `{E : Env}.

(** Up to [self.state = ASGIWebsocketState.RESPONSE]; the result is
    [body_suppressed]. *)
Definition rejection_head (self : WebsocketMixin) : WebsocketMixin * result bool :=
  match response self with
  | None => (self, Raise TypeError)
  | Some d =>
      match d !! "status" with
      | None => (self, Raise (KeyError "status"))
      | Some status =>
          match suppress_body "GET" status with
          | Raise e => (self, Raise e)
          | Ok b =>
              if state_eqb (state self) HANDSHAKE
              then
                match d !! "headers" with
                | None => (self, Raise (KeyError "headers"))
                | Some raw =>
                    match py_iter raw with
                    | Raise e => (self, Raise e)
                    | Ok items =>
                        match header_pairs items with
                        | Raise e => (self, Raise e)
                        | Ok hs =>
                            match py_int status with
                            | Raise e => (self, Raise e)
                            | Ok code =>
                                (with_state RESPONSE
                                   (with_sent
                                      (RejectConnection code (hs ++ response_headers) (negb b))
                                      self),
                                 Ok b)
                            end
                        end
                    end
                end
              else (self, Ok b)
          end
      end
  end.

(** [if not body_suppressed: await self.asend(RejectData(...))]. *)
Definition rejection_body (message : dict) (b : bool) (self : WebsocketMixin)
  : WebsocketMixin * result unit :=
  if b then (self, Ok tt)
  else
    match py_bytes (dict_get message "body" (VBytes [])) with
    | Raise e => (self, Raise e)
    | Ok data => (with_sent (RejectData data (negb (more_body message))) self, Ok tt)
    end.

(** [if not message.get("more_body", False): ...]. *)
Definition rejection_end (message : dict) (self : WebsocketMixin) : WebsocketMixin :=
  if more_body message then self
  else with_state HTTPCLOSED (with_put disconnect_message self).

Definition rejection_parts (message : dict) (self : WebsocketMixin)
  : WebsocketMixin * result unit :=
  match rejection_head self with
  | (head, Raise e) => (head, Raise e)
  | (head, Ok b) =>
      match rejection_body message b head with
      | (mid, Raise e) => (mid, Raise e)
      | (mid, Ok _) => (rejection_end message mid, Ok tt)
      end
  end.

End RejectionParts.

(** ** The events of one connection *)

(** The two answers to a handshake. *)
Definition is_answer (ev : Event) : bool :=
  match ev with
  | AcceptConnection _ | RejectConnection _ _ _ => true
  | _ => false
  end.

(** What may follow an accepted handshake. *)
Definition is_frame_or_close (ev : Event) : bool :=
  match ev with
  | MessageEvent _ | CloseConnection _ => true
  | _ => false
  end.

(** What may follow a rejection that announced a body ([has_body] true)
    or none. *)
Definition is_body_or_close (has_body : bool) (ev : Event) : bool :=
  match ev with
  | RejectData _ _ => has_body
  | CloseConnection _ => true
  | _ => false
  end.

(** The stored response agrees with the [has_body] flag that was sent. *)
Definition announced `{E : Env} (self : WebsocketMixin) (has_body : bool) : Prop :=
  exists d status b,
    response self = Some d
    /\ d !! "status" = Some status
    /\ suppress_body "GET" status = Ok b
    /\ has_body = negb b.

(** The shape of everything sent on a connection, with the state it
    goes with. *)
Definition conn_inv `{E : Env} (self : WebsocketMixin) : Prop :=
  match sent self with
  | [] => state self = HANDSHAKE
  | AcceptConnection _ :: rest =>
      forallb is_frame_or_close rest = true
      /\ (state self = CONNECTED \/ state self = CLOSED)
  | RejectConnection _ _ has_body :: rest =>
      forallb (is_body_or_close has_body) rest = true
      /\ (state self = RESPONSE /\ announced self has_body
          \/ state self = HTTPCLOSED \/ state self = CLOSED)
  | _ :: _ => False
  end.

(** ** Vocabulary for the headers *)

(** No whitespace at either end. *)
Definition trimmed (b : list byte) : bool :=
  match b with [] => true | x :: _ => negb (is_space x) end
  && match rev b with [] => true | x :: _ => negb (is_space x) end.

(** [p] is what one item of the application's header list becomes. *)
Definition header_of (item : pyval) (p : list byte * list byte) : Prop :=
  exists key val kb vb,
    unpack2 item = Ok (key, val)
    /\ py_bytes key = Ok kb
    /\ py_bytes val = Ok vb
    /\ p = (strip kb, strip vb).

(** ** The application's end and the shared dictionaries *)

(** What [handle_asgi_app] raises after an application that ended with
    [o]. *)
Definition raised_by (o : outcome) : result unit :=
  match o with
  | Aborted x => Raise (Fatal x)
  | Returned | Raised | Cancelled => Ok tt
  end.

(** The object [handle_asgi_app] leaves. *)
Definition after_app `{E : Env} (o : outcome) (self : WebsocketMixin) : WebsocketMixin :=
  match o with
  | Aborted _ => self
  | Returned | Raised | Cancelled => after_handshake_check (after_outcome o self)
  end.

(** An application that leaves the dictionary it gave as a start
    instruction alone. *)
Inductive keeps_response : App -> Prop :=
| keeps_return : keeps_response AppReturn
| keeps_raise : keeps_response AppRaise
| keeps_cancelled : keeps_response AppCancelled
| keeps_abort (x : fatal) : keeps_response (AppAbort x)
| keeps_send (message : dict) (k : result unit -> App) :
    (forall r, keeps_response (k r)) -> keeps_response (AppSend message k)
| keeps_scope (f : Scope -> Scope) (k : App) :
    keeps_response k -> keeps_response (AppSetScope f k).

(** The shape of everything sent on a connection that holds whatever the
    application does to the stored response. *)
Definition conn_shape (self : WebsocketMixin) : Prop :=
  match sent self with
  | [] => state self = HANDSHAKE
  | AcceptConnection _ :: rest =>
      forallb is_frame_or_close rest = true
      /\ (state self = CONNECTED \/ state self = CLOSED)
  | RejectConnection _ _ _ :: rest =>
      forallb (is_body_or_close true) rest = true
      /\ (state self = RESPONSE \/ state self = HTTPCLOSED \/ state self = CLOSED)
  | _ :: _ => False
  end.

(** * Properties *)

(** ** The message buffer *)

Lemma string_append_cons (c : ascii) (s t : string) : String c s +:+ t = String c (s +:+ t).
Proof. reflexivity. Qed.

Lemma string_append_nil_l (s : string) : "" +:+ s = s.
Proof. reflexivity. Qed.

Lemma string_length_append (s t : string) :
  String.length (s +:+ t) = (String.length s + String.length t)%nat.
Proof.
  induction s as [|c s IH]; [reflexivity|].
  rewrite string_append_cons. simpl. now rewrite IH.
Qed.

Lemma string_append_assoc (s t u : string) : (s +:+ t) +:+ u = s +:+ (t +:+ u).
Proof.
  induction s as [|c s IH]; [reflexivity|].
  rewrite !string_append_cons. now rewrite IH.
Qed.

Lemma string_append_nil_r (s : string) : s +:+ "" = s.
Proof.
  induction s as [|c s IH]; [reflexivity|].
  rewrite string_append_cons. now rewrite IH.
Qed.

Lemma total_len_cons (e : Message) (events : list Message) :
  total_len (e :: events) = (message_len e + total_len events)%nat.
Proof. reflexivity. Qed.

Lemma total_len_app (xs ys : list Message) :
  total_len (xs ++ ys) = (total_len xs + total_len ys)%nat.
Proof.
  induction xs as [|x xs IH]; [reflexivity|].
  change (total_len (x :: xs ++ ys) = (total_len (x :: xs) + total_len ys)%nat).
  rewrite !total_len_cons, IH. lia.
Qed.

Lemma total_len_take (k : nat) (events : list Message) :
  (total_len (take k events) <= total_len events)%nat.
Proof.
  rewrite <- (take_drop k events) at 2. rewrite total_len_app. lia.
Qed.

Lemma same_typed_take (k : nat) (events : list Message) :
  same_typed events -> same_typed (take k events).
Proof.
  intros Hs. rewrite <- (take_drop k events) in Hs.
  destruct Hs as [Hs | Hs]; rewrite forallb_app in Hs;
    apply andb_true_iff in Hs as [Hs _]; [left | right]; exact Hs.
Qed.

(** Text fragments appended to a buffer that is empty or holds text. *)
Lemma extend_all_text (events : list Message) :
  forall (pre : string) (v : option content) (limit : Z),
    forallb is_text events = true ->
    v = None /\ pre = "" \/ v = Some (CText pre) ->
    Z.of_nat (String.length pre + total_len events) <= limit ->
    extend_all events (mkBuffer v limit) =
      (mkBuffer (match events with
                 | [] => v
                 | _ => Some (CText (pre +:+ join_text (map text_of events)))
                 end) limit, Ok tt).
Proof.
  induction events as [|e rest IH]; intros pre v limit Ht Hv Hlen; [reflexivity|].
  simpl in Ht. apply andb_true_iff in Ht as [He Hrest].
  destruct e as [d|d]; [clear He | discriminate He].
  rewrite total_len_cons in Hlen. simpl message_len in Hlen.
  assert (Hstep : extend (TextMessage d) (mkBuffer v limit)
                  = (mkBuffer (Some (CText (pre +:+ d))) limit, Ok tt)).
  { unfold extend. simpl.
    assert (Hfit : (Z.of_nat (String.length (pre +:+ d)) >? limit) = false).
    { rewrite string_length_append. rewrite Z.gtb_ltb. apply Z.ltb_ge. lia. }
    destruct Hv as [[-> ->] | ->]; simpl in *; now rewrite Hfit. }
  simpl extend_all. rewrite Hstep.
  rewrite (IH (pre +:+ d) (Some (CText (pre +:+ d))) limit Hrest).
  - simpl. rewrite string_append_assoc.
    destruct rest; [simpl; now rewrite !string_append_nil_r | reflexivity].
  - now right.
  - rewrite string_length_append. lia.
Qed.

(** Binary fragments appended to a buffer that is empty or holds bytes. *)
Lemma extend_all_bytes (events : list Message) :
  forall (pre : list byte) (v : option content) (limit : Z),
    forallb (fun m => negb (is_text m)) events = true ->
    v = None /\ pre = [] \/ v = Some (CBytes pre) ->
    Z.of_nat (List.length pre + total_len events) <= limit ->
    extend_all events (mkBuffer v limit) =
      (mkBuffer (match events with
                 | [] => v
                 | _ => Some (CBytes (pre ++ List.concat (map bytes_of events)))
                 end) limit, Ok tt).
Proof.
  induction events as [|e rest IH]; intros pre v limit Ht Hv Hlen; [reflexivity|].
  simpl in Ht. apply andb_true_iff in Ht as [He Hrest].
  destruct e as [d|d]; [discriminate He | clear He].
  rewrite total_len_cons in Hlen. simpl message_len in Hlen.
  assert (Hstep : extend (BytesMessage d) (mkBuffer v limit)
                  = (mkBuffer (Some (CBytes (pre ++ d))) limit, Ok tt)).
  { unfold extend. simpl.
    assert (Hfit : (Z.of_nat (List.length (pre ++ d)) >? limit) = false).
    { rewrite length_app. rewrite Z.gtb_ltb. apply Z.ltb_ge. lia. }
    destruct Hv as [[-> ->] | ->]; simpl in *; now rewrite Hfit. }
  simpl extend_all. rewrite Hstep.
  rewrite (IH (pre ++ d) (Some (CBytes (pre ++ d))) limit Hrest).
  - simpl. rewrite <- app_assoc.
    destruct rest; [simpl; now rewrite !app_nil_r | reflexivity].
  - now right.
  - rewrite length_app. lia.
Qed.

Lemma join_text_length (events : list Message) :
  forallb is_text events = true ->
  String.length (join_text (map text_of events)) = total_len events.
Proof.
  induction events as [|e rest IH]; [reflexivity|].
  simpl. intros Ht. apply andb_true_iff in Ht as [He Hrest].
  destruct e as [d|d]; [|discriminate He].
  rewrite string_length_append, (IH Hrest), total_len_cons. reflexivity.
Qed.

Lemma concat_bytes_length (events : list Message) :
  forallb (fun m => negb (is_text m)) events = true ->
  List.length (List.concat (map bytes_of events)) = total_len events.
Proof.
  induction events as [|e rest IH]; [reflexivity|].
  simpl. intros Ht. apply andb_true_iff in Ht as [He Hrest].
  destruct e as [d|d]; [discriminate He|].
  rewrite length_app, (IH Hrest), total_len_cons. reflexivity.
Qed.

Lemma joined_len (events : list Message) :
  same_typed events -> value_len (joined events) = total_len events.
Proof.
  destruct events as [|e rest]; [reflexivity|].
  intros [Ht | Ht]; pose proof Ht as Ht'; simpl in Ht';
    apply andb_true_iff in Ht' as [He _]; destruct e as [d|d]; try discriminate He.
  - exact (join_text_length (TextMessage d :: rest) Ht).
  - exact (concat_bytes_length (BytesMessage d :: rest) Ht).
Qed.

(** Same-typed fragments within the limit: every call returns and the
    buffer holds the fragments joined. *)
Lemma extend_all_within (limit : Z) (events : list Message) :
  same_typed events ->
  Z.of_nat (total_len events) <= limit ->
  extend_all events (WebsocketBuffer_init limit) = (mkBuffer (joined events) limit, Ok tt).
Proof.
  intros [Ht | Ht] Hlen; unfold WebsocketBuffer_init.
  - rewrite (extend_all_text events "" None limit Ht); [| now left | simpl; lia].
    destruct events as [|e rest]; [reflexivity|].
    simpl in Ht. apply andb_true_iff in Ht as [He _].
    unfold joined. now rewrite He.
  - rewrite (extend_all_bytes events [] None limit Ht); [| now left | simpl; lia].
    destruct events as [|e rest]; [reflexivity|].
    simpl in Ht. apply andb_true_iff in Ht as [He _].
    unfold joined. apply negb_true_iff in He. now rewrite He.
Qed.

Lemma extend_after_clear (self : WebsocketBuffer) (e : Message) :
  Z.of_nat (message_len e) <= max_length self ->
  extend e (clear self) = (mkBuffer (Some (content_of e)) (max_length self), Ok tt).
Proof.
  intros Hlen. unfold extend, clear. simpl value. simpl max_length.
  destruct e as [d|d]; simpl in *.
  - rewrite string_append_nil_l.
    replace (Z.of_nat (String.length d) >? max_length self) with false; [reflexivity|].
    symmetry. rewrite Z.gtb_ltb. apply Z.ltb_ge. lia.
  - replace (Z.of_nat (List.length d) >? max_length self) with false; [reflexivity|].
    symmetry. rewrite Z.gtb_ltb. apply Z.ltb_ge. lia.
Qed.

(** The call that takes same-typed content over the limit raises
    [FrameTooLarge]. *)
Lemma extend_over_limit (limit : Z) (events : list Message) (e : Message) :
  same_typed (events ++ [e]) ->
  Z.of_nat (total_len events) <= limit ->
  limit < Z.of_nat (total_len (events ++ [e])) ->
  exists self',
    extend e (mkBuffer (joined events) limit) = (self', Raise FrameTooLarge).
Proof.
  intros Hs Hle Hgt. rewrite total_len_app in Hgt.
  change (total_len [e]) with (message_len e + 0)%nat in Hgt.
  assert (Hs' : same_typed events).
  { destruct Hs as [Hs | Hs]; rewrite forallb_app in Hs;
      apply andb_true_iff in Hs as [Hs _]; [left | right]; exact Hs. }
  pose proof (joined_len events Hs') as Hjl.
  destruct Hs as [Hs | Hs]; rewrite forallb_app in Hs;
    apply andb_true_iff in Hs as [Hev He]; simpl in He;
    rewrite andb_true_r in He; destruct e as [d|d]; try discriminate He; clear He.
  - destruct events as [|e0 rest].
    + eexists. unfold extend. simpl. simpl in Hgt.
      rewrite string_append_nil_l.
      replace (Z.of_nat (String.length d) >? limit) with true; [reflexivity|].
      symmetry. apply Z.gtb_lt. lia.
    + pose proof Hev as Hev'. simpl in Hev'. apply andb_true_iff in Hev' as [He0 _].
      unfold joined in *. rewrite He0 in *. simpl value_len in Hjl.
      eexists. unfold extend. simpl value. cbv iota. simpl content_add. cbv iota.
      simpl content_len. rewrite string_length_append.
      replace (_ >? _) with true; [reflexivity|].
      symmetry. apply Z.gtb_lt. simpl max_length. simpl message_len in Hgt. lia.
  - destruct events as [|e0 rest].
    + eexists. unfold extend. simpl. simpl in Hgt.
      replace (Z.of_nat (List.length d) >? limit) with true; [reflexivity|].
      symmetry. apply Z.gtb_lt. lia.
    + pose proof Hev as Hev'. simpl in Hev'. apply andb_true_iff in Hev' as [He0 _].
      apply negb_true_iff in He0.
      unfold joined in *. rewrite He0 in *. simpl value_len in Hjl.
      eexists. unfold extend. simpl value. cbv iota. simpl content_add. cbv iota.
      simpl content_len. rewrite length_app.
      replace (_ >? _) with true; [reflexivity|].
      symmetry. apply Z.gtb_lt. simpl max_length. simpl message_len in Hgt. lia.
Qed.

Lemma extend_all_app (xs ys : list Message) (self : WebsocketBuffer) :
  extend_all (xs ++ ys) self =
    match extend_all xs self with
    | (self', Ok _) => extend_all ys self'
    | r => r
    end.
Proof.
  revert self. induction xs as [|x xs IH]; intros self; [reflexivity|].
  simpl. destruct (extend x self) as [self' [[]|err]]; [apply IH | reflexivity].
Qed.

(** C4.  Same-typed fragments appended to an empty buffer: while the
    accumulated length is at most the limit (equality included) every
    [extend] returns, the buffer holds exactly the fragments so far, and its
    length is at most the limit after each call; the [extend] that takes
    the accumulated length over the limit raises [FrameTooLarge]; after
    [clear], an [extend] with a fragment that fits returns and the buffer
    holds that fragment alone, whatever the type of the earlier content. *)
Theorem buffer_extend_limit_clear (limit : Z) :
  (forall events : list Message,
      same_typed events ->
      Z.of_nat (total_len events) <= limit ->
      forall k : nat,
        extend_all (take k events) (WebsocketBuffer_init limit)
          = (mkBuffer (joined (take k events)) limit, Ok tt)
        /\ Z.of_nat (value_len (joined (take k events))) <= limit)
  /\ (forall (events : list Message) (e : Message),
        same_typed (events ++ [e]) ->
        Z.of_nat (total_len events) <= limit ->
        limit < Z.of_nat (total_len (events ++ [e])) ->
        exists self self',
          extend_all events (WebsocketBuffer_init limit) = (self, Ok tt)
          /\ extend e self = (self', Raise FrameTooLarge)
          /\ extend_all (events ++ [e]) (WebsocketBuffer_init limit)
             = (self', Raise FrameTooLarge))
  /\ (forall (self : WebsocketBuffer) (e : Message),
        max_length self = limit ->
        Z.of_nat (message_len e) <= limit ->
        extend e (clear self) = (mkBuffer (Some (content_of e)) limit, Ok tt)).
Proof.
  split; [|split].
  - intros events Hs Hle k.
    pose proof (same_typed_take k events Hs) as Hs'.
    pose proof (total_len_take k events) as Hk.
    split.
    + apply extend_all_within; [exact Hs' | lia].
    + rewrite (joined_len _ Hs'). lia.
  - intros events e Hs Hle Hgt.
    assert (Hs' : same_typed events).
    { destruct Hs as [Hs | Hs]; rewrite forallb_app in Hs;
        apply andb_true_iff in Hs as [Hs _]; [left | right]; exact Hs. }
    destruct (extend_over_limit limit events e Hs Hle Hgt) as [self' Hraise].
    exists (mkBuffer (joined events) limit), self'.
    pose proof (extend_all_within limit events Hs' Hle) as Hall.
    split; [exact Hall | split; [exact Hraise |]].
    rewrite extend_all_app, Hall. simpl. now rewrite Hraise.
  - intros self e <- Hlen. now apply extend_after_clear.
Qed.

Lemma buffer_extend_limit_clear_witness :
  extend_all (take 2 [BytesMessage [x61; x62]; BytesMessage [x63]]%byte) (WebsocketBuffer_init 3)
    = (mkBuffer (Some (CBytes [x61; x62; x63]%byte)) 3, Ok tt)
  /\ (exists self self',
        extend_all [BytesMessage [x61; x62]; BytesMessage [x63]]%byte (WebsocketBuffer_init 3)
          = (self, Ok tt)
        /\ extend (BytesMessage [x64]%byte) self = (self', Raise FrameTooLarge)
        /\ extend_all ([BytesMessage [x61; x62]; BytesMessage [x63]] ++ [BytesMessage [x64]])%byte
             (WebsocketBuffer_init 3) = (self', Raise FrameTooLarge))
  /\ extend (TextMessage "hey") (clear (mkBuffer (Some (CBytes [x61; x62; x63]%byte)) 3))
     = (mkBuffer (Some (CText "hey")) 3, Ok tt).
Proof.
  destruct (buffer_extend_limit_clear 3) as (Hin & Hover & Hclear).
  split; [|split].
  - apply (Hin [BytesMessage [x61; x62]; BytesMessage [x63]]%byte);
      [right; reflexivity | vm_compute; discriminate].
  - apply (Hover [BytesMessage [x61; x62]; BytesMessage [x63]]%byte (BytesMessage [x64]%byte));
      [right; reflexivity | vm_compute; discriminate | vm_compute; reflexivity].
  - apply (Hclear (mkBuffer (Some (CBytes [x61; x62; x63]%byte)) 3) (TextMessage "hey"));
      [reflexivity | vm_compute; discriminate].
Defined.

(** ** Dispatch of an application instruction *)

Ltac run_send :=
  unfold asgi_send, send_http_error, when,
    mbind, M_bind, mret, M_ret, lift, raise, get_state, get_response, set_state,
    set_response, asend, asgi_put, access, getitem.

Lemma eq_str_true (v : pyval) (s : string) : eq_str v s = true -> v = VStr s.
Proof.
  destruct v; simpl; try discriminate.
  intros Heq. apply String.eqb_eq in Heq. now subst.
Qed.

Section Dispatch.
Context `{E : Env}.
Variables (message : dict) (self : WebsocketMixin).

Lemma asgi_send_no_type :
  message !! "type" = None ->
  asgi_send message self = (self, Raise (KeyError "type")).
Proof. intros Hty. run_send. now rewrite Hty. Qed.

Lemma asgi_send_accept :
  message !! "type" = Some (VStr "websocket.accept") ->
  state self = HANDSHAKE ->
  asgi_send message self =
    (with_access (status_only 101)
       (with_state CONNECTED (with_sent (AcceptConnection [PerMessageDeflate]) self)),
     Ok tt).
Proof. intros Hty Hst. run_send. now rewrite Hty, Hst. Qed.

Lemma asgi_send_start :
  message !! "type" = Some (VStr "websocket.http.response.start") ->
  state self = HANDSHAKE ->
  asgi_send message self =
    (with_access message (with_response (Some message) self), Ok tt).
Proof. intros Hty Hst. run_send. now rewrite Hty, Hst. Qed.

Lemma asgi_send_body :
  message !! "type" = Some (VStr "websocket.http.response.body") ->
  state self = HANDSHAKE \/ state self = RESPONSE ->
  asgi_send message self = _asgi_send_rejection message self.
Proof. intros Hty [Hst | Hst]; run_send; now rewrite Hty, Hst. Qed.

Lemma asgi_send_send :
  message !! "type" = Some (VStr "websocket.send") ->
  state self = CONNECTED ->
  asgi_send message self =
    if negb (is_None (dict_get message "bytes" VNone))
    then
      match message !! "bytes" with
      | None => (self, Raise (KeyError "bytes"))
      | Some raw =>
          match py_bytes raw with
          | Ok data => (with_sent (MessageEvent (BytesMessage data)) self, Ok tt)
          | Raise e => (self, Raise e)
          end
      end
    else
      match message !! "text" with
      | None => (self, Raise (KeyError "text"))
      | Some (VStr s) => (with_sent (MessageEvent (TextMessage s)) self, Ok tt)
      | Some _ => (self, Raise TypeError)
      end.
Proof.
  intros Hty Hst. run_send. rewrite Hty, Hst. simpl.
  destruct (negb (is_None (dict_get message "bytes" VNone))).
  - destruct (message !! "bytes") as [raw|]; [|reflexivity].
    now destruct (py_bytes raw).
  - destruct (message !! "text") as [[]|]; reflexivity.
Qed.

Lemma asgi_send_close_handshake :
  message !! "type" = Some (VStr "websocket.close") ->
  state self = HANDSHAKE ->
  asgi_send message self =
    (with_state HTTPCLOSED
       (with_access (status_only 403)
          (with_sent (RejectConnection 403 response_headers false) self)),
     Ok tt).
Proof. intros Hty Hst. run_send. now rewrite Hty, Hst. Qed.

Lemma asgi_send_close :
  message !! "type" = Some (VStr "websocket.close") ->
  state self <> HANDSHAKE ->
  asgi_send message self =
    match message !! "code" with
    | None => (self, Raise (KeyError "code"))
    | Some raw =>
        match py_int raw with
        | Ok code => (with_state CLOSED (with_sent (CloseConnection code) self), Ok tt)
        | Raise e => (self, Raise e)
        end
    end.
Proof.
  intros Hty Hst. run_send. rewrite Hty.
  destruct (state self); try congruence; simpl;
    (destruct (message !! "code") as [raw|]; [|reflexivity]);
    now destruct (py_int raw).
Qed.

(** The final [else]: no branch of [asgi_send] takes the pair. *)
Lemma asgi_send_unexpected (kind : pyval) :
  message !! "type" = Some kind ->
  eq_str kind "websocket.close" = false ->
  eq_str kind "websocket.accept" && state_eqb (state self) HANDSHAKE = false ->
  eq_str kind "websocket.http.response.start" && state_eqb (state self) HANDSHAKE = false ->
  eq_str kind "websocket.http.response.body"
    && (state_eqb (state self) HANDSHAKE || state_eqb (state self) RESPONSE) = false ->
  eq_str kind "websocket.send" && state_eqb (state self) CONNECTED = false ->
  asgi_send message self = (self, Raise (UnexpectedMessage (state self) kind)).
Proof.
  intros Hty Hclose Ha Hs Hb Hd. run_send. rewrite Hty.
  rewrite Ha, Hs, Hb, Hd, Hclose. reflexivity.
Qed.

End Dispatch.

(** ** Accept *)

(** C3.  An accept instruction is taken exactly when the state is
    [HANDSHAKE]: there it gives the accept-with-extensions event to the
    engine and the state becomes [CONNECTED]; in every other state, and so
    for a second accept, it raises [UnexpectedMessage] and sends nothing. *)
Theorem accept_iff_handshake `{E : Env} (message : dict) (self : WebsocketMixin) :
  message !! "type" = Some (VStr "websocket.accept") ->
  ((exists self', asgi_send message self = (self', Ok tt)) <-> state self = HANDSHAKE)
  /\ (state self = HANDSHAKE ->
      asgi_send message self = (accepted self, Ok tt)
      /\ sent (accepted self) = sent self ++ [AcceptConnection [PerMessageDeflate]]
      /\ state (accepted self) = CONNECTED
      /\ asgi_send message (accepted self)
         = (accepted self, Raise (UnexpectedMessage CONNECTED (VStr "websocket.accept"))))
  /\ (state self <> HANDSHAKE ->
      asgi_send message self
      = (self, Raise (UnexpectedMessage (state self) (VStr "websocket.accept")))).
Proof.
  intros Hty.
  assert (Hother : forall c : WebsocketMixin, state c <> HANDSHAKE ->
            asgi_send message c
            = (c, Raise (UnexpectedMessage (state c) (VStr "websocket.accept")))).
  { intros c Hc. apply asgi_send_unexpected; [exact Hty | reflexivity | | | | ];
      destruct (state c); try congruence; reflexivity. }
  split; [|split].
  - split.
    + intros [self' Hrun]. destruct (state self) eqn:Hst; try reflexivity;
        rewrite Hother in Hrun by congruence; discriminate Hrun.
    + intros Hst. eexists. now apply asgi_send_accept.
  - intros Hst. split; [now apply asgi_send_accept|].
    split; [reflexivity|]. split; [reflexivity|].
    apply (Hother (accepted self)). discriminate.
  - apply Hother.
Qed.

Lemma accept_iff_handshake_witness :
  asgi_send (E := example_env) (msg "websocket.accept" []) fresh = (accepted fresh, Ok tt)
  /\ asgi_send (E := example_env) (msg "websocket.accept" []) (accepted fresh)
     = (accepted fresh, Raise (UnexpectedMessage CONNECTED (VStr "websocket.accept"))).
Proof.
  destruct (accept_iff_handshake (E := example_env) (msg "websocket.accept" []) fresh)
    as (_ & Hin & _); [reflexivity|].
  destruct (Hin eq_refl) as (Hfirst & _ & _ & Hsecond).
  split; [exact Hfirst | exact Hsecond].
Defined.

(** ** Instructions outside the transition table *)

(** C1 (amended).  An instruction whose (kind, state) pair is not a row of
    the table and whose kind is not close raises [UnexpectedMessage] with
    the state and the kind, sends nothing and leaves the object as it was.
    A close instruction outside the table (state [RESPONSE], [CLOSED] or
    [HTTPCLOSED]) is not refused: with a code that [int] accepts it sends a
    close event and the state becomes [CLOSED]. *)
Theorem unexpected_unless_close `{E : Env} (message : dict) (self : WebsocketMixin) (kind : pyval) :
  message !! "type" = Some kind ->
  table_row kind (state self) = false ->
  (eq_str kind "websocket.close" = false ->
   asgi_send message self = (self, Raise (UnexpectedMessage (state self) kind)))
  /\ (eq_str kind "websocket.close" = true ->
      forall (raw : pyval) (code : Z),
        message !! "code" = Some raw ->
        py_int raw = Ok code ->
        asgi_send message self
        = (with_state CLOSED (with_sent (CloseConnection code) self), Ok tt)).
Proof.
  intros Hty Hrow. split.
  - intros Hclose. apply asgi_send_unexpected; [exact Hty | exact Hclose | | | | ];
      destruct (state self); simpl in *;
      rewrite ?andb_false_r, ?andb_true_r, ?orb_false_r, ?orb_true_r; try reflexivity;
      repeat (apply orb_false_elim in Hrow as [Hrow ?]); assumption.
  - intros Hclose raw code Hraw Hint.
    apply eq_str_true in Hclose. subst kind.
    rewrite asgi_send_close; [now rewrite Hraw, Hint | exact Hty |].
    intros Hst. rewrite Hst in Hrow. discriminate Hrow.
Qed.

Lemma unexpected_unless_close_witness :
  asgi_send (E := example_env) (msg "websocket.send" [("text", VStr "hi")]) (in_state HTTPCLOSED)
  = (in_state HTTPCLOSED, Raise (UnexpectedMessage HTTPCLOSED (VStr "websocket.send"))).
Proof.
  destruct (unexpected_unless_close (E := example_env)
              (msg "websocket.send" [("text", VStr "hi")]) (in_state HTTPCLOSED)
              (VStr "websocket.send")) as [Hraise _]; [reflexivity | reflexivity |].
  apply Hraise. reflexivity.
Defined.

(** C1 as stated fails: a close instruction in state [RESPONSE], [CLOSED]
    or [HTTPCLOSED] is no row of the table, yet [asgi_send] returns, sends
    a close event and sets the state to [CLOSED]. *)
Lemma close_outside_table_not_refused :
  table_row (VStr "websocket.close") RESPONSE = false
  /\ table_row (VStr "websocket.close") CLOSED = false
  /\ table_row (VStr "websocket.close") HTTPCLOSED = false
  /\ asgi_send (E := example_env) (msg "websocket.close" [("code", VInt 1000)]) (in_state RESPONSE)
     = (with_state CLOSED (with_sent (CloseConnection 1000) (in_state RESPONSE)), Ok tt)
  /\ asgi_send (E := example_env) (msg "websocket.close" [("code", VInt 1000)]) (in_state CLOSED)
     = (with_state CLOSED (with_sent (CloseConnection 1000) (in_state CLOSED)), Ok tt)
  /\ asgi_send (E := example_env) (msg "websocket.close" [("code", VInt 1000)]) (in_state HTTPCLOSED)
     = (with_state CLOSED (with_sent (CloseConnection 1000) (in_state HTTPCLOSED)), Ok tt)
  /\ asgi_send (E := example_env) (msg "websocket.close" [("code", VInt 1000)]) (in_state RESPONSE)
     <> (in_state RESPONSE, Raise (UnexpectedMessage RESPONSE (VStr "websocket.close")))
  /\ sent (with_state CLOSED (with_sent (CloseConnection 1000) (in_state RESPONSE)))
     = [CloseConnection 1000].
Proof. repeat split; vm_compute; (reflexivity || discriminate). Qed.

(** ** [asgi_send] against its table *)

Lemma classify_cases (ty : pyval) :
  match classify ty with
  | KAccept => ty = VStr "websocket.accept"
  | KStart => ty = VStr "websocket.http.response.start"
  | KBody => ty = VStr "websocket.http.response.body"
  | KSend => ty = VStr "websocket.send"
  | KClose => ty = VStr "websocket.close"
  | KOther =>
      eq_str ty "websocket.accept" = false
      /\ eq_str ty "websocket.http.response.start" = false
      /\ eq_str ty "websocket.http.response.body" = false
      /\ eq_str ty "websocket.send" = false
      /\ eq_str ty "websocket.close" = false
  end.
Proof.
  unfold classify.
  destruct (eq_str ty "websocket.accept") eqn:H1; [now apply eq_str_true|].
  destruct (eq_str ty "websocket.http.response.start") eqn:H2; [now apply eq_str_true|].
  destruct (eq_str ty "websocket.http.response.body") eqn:H3; [now apply eq_str_true|].
  destruct (eq_str ty "websocket.send") eqn:H4; [now apply eq_str_true|].
  destruct (eq_str ty "websocket.close") eqn:H5; [now apply eq_str_true|].
  repeat split; reflexivity.
Qed.

Lemma asgi_send_as_table `{E : Env} (message : dict) (self : WebsocketMixin) :
  asgi_send message self = asgi_send_table message self.
Proof.
  unfold asgi_send_table.
  destruct (message !! "type") as [ty|] eqn:Hty; [|now apply asgi_send_no_type].
  pose proof (classify_cases ty) as Hk.
  destruct (classify ty) eqn:Hc; try subst ty.
  - destruct (state self) eqn:Hst;
      [ now apply asgi_send_accept
      | rewrite <- Hst; apply asgi_send_unexpected; rewrite ?Hst; auto .. ].
  - destruct (state self) eqn:Hst;
      [ now apply asgi_send_start
      | rewrite <- Hst; apply asgi_send_unexpected; rewrite ?Hst; auto .. ].
  - destruct (state self) eqn:Hst;
      [ apply asgi_send_body; auto
      | rewrite <- Hst; apply asgi_send_unexpected; rewrite ?Hst; auto
      | apply asgi_send_body; auto
      | rewrite <- Hst; apply asgi_send_unexpected; rewrite ?Hst; auto ..].
  - destruct (state self) eqn:Hst;
      [ rewrite <- Hst; apply asgi_send_unexpected; rewrite ?Hst; auto
      | now apply asgi_send_send
      | rewrite <- Hst; apply asgi_send_unexpected; rewrite ?Hst; auto ..].
  - destruct (state self) eqn:Hst;
      [ now apply asgi_send_close_handshake
      | apply asgi_send_close; [auto | congruence] .. ].
  - destruct Hk as (H1 & H2 & H3 & H4 & H5).
    assert (Hraise : asgi_send message self = (self, Raise (UnexpectedMessage (state self) ty))).
    { apply asgi_send_unexpected; auto; rewrite ?H1, ?H2, ?H3, ?H4; reflexivity. }
    rewrite Hraise. now destruct (state self).
Qed.

(** ** The rejection path *)

Ltac run_rejection :=
  unfold _asgi_send_rejection, response_item, when,
    mbind, M_bind, mret, M_ret, lift, raise, get_state, get_response, set_state,
    set_response, asend, asgi_put, access, getitem.

Ltac split_matches :=
  repeat (simpl;
          match goal with
          | |- context [match ?x with _ => _ end] =>
              lazymatch x with
              | context [match _ with _ => _ end] => fail
              | _ => destruct x eqn:?
              end
          end).

Lemma state_eqb_eq (a b : ASGIWebsocketState) : state_eqb a b = true <-> a = b.
Proof. destruct a, b; simpl; split; congruence. Qed.

Section Rejection.
Context `{E : Env}.
Variables (message : dict) (self : WebsocketMixin).

Lemma rejection_without_response :
  response self = None ->
  _asgi_send_rejection message self = (self, Raise TypeError).
Proof. intros Hr. run_rejection. now rewrite Hr. Qed.

(** What [_asgi_send_rejection] leaves alone, and how far it can move. *)
Lemma rejection_frame :
  state self = HANDSHAKE \/ state self = RESPONSE ->
  forall self' r,
    _asgi_send_rejection message self = (self', r) ->
    access_log self' = access_log self
    /\ error_log self' = error_log self
    /\ response self' = response self
    /\ scope self' = scope self
    /\ error_logger self' = error_logger self
    /\ (exists events, sent self' = sent self ++ events)
    /\ moves (state self) (state self') = true
    /\ state self' <> CONNECTED /\ state self' <> CLOSED
    /\ (state self = RESPONSE -> state self' <> HANDSHAKE).
Proof.
  intros Hst self' r. run_rejection.
  split_matches; intros Hrun; simplify_eq; simpl;
    repeat match goal with
           | H : state_eqb _ _ = true |- _ => apply state_eqb_eq in H; simpl in H
           end;
    repeat split;
    first
      [ reflexivity
      | assumption
      | eexists; first [ symmetry; apply app_nil_r
                       | reflexivity
                       | rewrite <- !List.app_assoc; reflexivity ]
      | destruct Hst as [Hst | Hst]; rewrite Hst in *; simpl in *;
        first [reflexivity | discriminate | congruence] ].
Qed.

End Rejection.

(** ** One call of [asgi_send] *)

Lemma moves_refl (a : ASGIWebsocketState) : moves a a = true.
Proof. now destruct a. Qed.

Lemma reaches_trans (a b c : ASGIWebsocketState) :
  reaches a b = true -> reaches b c = true -> reaches a c = true.
Proof. destruct a, b, c; simpl; congruence. Qed.

Lemma moves_reaches (a b : ASGIWebsocketState) : moves a b = true -> reaches a b = true.
Proof. destruct a, b; simpl; congruence. Qed.

Section Step.
Context `{E : Env}.

Lemma send_frame_frame (message : dict) (self self' : WebsocketMixin) (r : result unit) :
  send_frame message self = (self', r) ->
  state self' = state self
  /\ access_log self' = access_log self
  /\ error_log self' = error_log self
  /\ response self' = response self
  /\ scope self' = scope self
  /\ error_logger self' = error_logger self
  /\ (exists events, sent self' = sent self ++ events).
Proof.
  unfold send_frame. split_matches; intros Hrun; simplify_eq; simpl;
    repeat split; eexists; first [symmetry; apply app_nil_r | reflexivity].
Qed.

Lemma close_with_code_frame (message : dict) (self self' : WebsocketMixin) (r : result unit) :
  close_with_code message self = (self', r) ->
  (state self' = state self \/ state self' = CLOSED)
  /\ access_log self' = access_log self
  /\ error_log self' = error_log self
  /\ response self' = response self
  /\ scope self' = scope self
  /\ error_logger self' = error_logger self
  /\ (exists events, sent self' = sent self ++ events).
Proof.
  unfold close_with_code. split_matches; intros Hrun; simplify_eq; simpl;
    repeat split; try (now left); try (now right);
    eexists; first [symmetry; apply app_nil_r | reflexivity].
Qed.

(** Everything one call of [asgi_send] can do to the object. *)
Lemma asgi_send_step (message : dict) (self self' : WebsocketMixin) (r : result unit) :
  asgi_send message self = (self', r) ->
  moves (state self) (state self') = true
  /\ access_log self' = access_log self ++ logged message self
  /\ error_log self' = error_log self
  /\ scope self' = scope self
  /\ error_logger self' = error_logger self
  /\ (exists events, sent self' = sent self ++ events)
  /\ (response self' = response self \/ state self = HANDSHAKE /\ response self' = Some message).
Proof.
  rewrite asgi_send_as_table. unfold asgi_send_table, logged.
  destruct (message !! "type") as [ty|].
  2:{ intros Hrun. simplify_eq. rewrite app_nil_r, moves_refl.
      repeat split; [exists []; symmetry; apply app_nil_r | now left]. }
  destruct (classify ty), (state self) eqn:Hst; intros Hrun;
    try (simplify_eq; simpl; rewrite ?Hst, ?app_nil_r;
         repeat split;
         first [ reflexivity
               | eexists; first [ symmetry; apply app_nil_r | reflexivity ]
               | now left | now right ]).
  - destruct (rejection_frame message self (or_introl Hst) self' r Hrun)
      as (Ha & He & Hr & Hs & Hl & Hev & Hm & _).
    rewrite Hst in Hm. rewrite app_nil_r. repeat split; auto.
  - destruct (rejection_frame message self (or_intror Hst) self' r Hrun)
      as (Ha & He & Hr & Hs & Hl & Hev & Hm & _).
    rewrite Hst in Hm. rewrite app_nil_r. repeat split; auto.
  - destruct (send_frame_frame message self self' r Hrun)
      as (Hs' & Ha & He & Hr & Hs & Hl & Hev).
    rewrite Hs', Hst, app_nil_r. repeat split; auto.
  - destruct (close_with_code_frame message self self' r Hrun)
      as (Hs' & Ha & He & Hr & Hs & Hl & Hev).
    rewrite app_nil_r. repeat split; auto.
    destruct Hs' as [-> | ->]; now rewrite ?Hst.
  - destruct (close_with_code_frame message self self' r Hrun)
      as (Hs' & Ha & He & Hr & Hs & Hl & Hev).
    rewrite app_nil_r. repeat split; auto.
    destruct Hs' as [-> | ->]; now rewrite ?Hst.
  - destruct (close_with_code_frame message self self' r Hrun)
      as (Hs' & Ha & He & Hr & Hs & Hl & Hev).
    rewrite app_nil_r. repeat split; auto.
    destruct Hs' as [-> | ->]; now rewrite ?Hst.
  - destruct (close_with_code_frame message self self' r Hrun)
      as (Hs' & Ha & He & Hr & Hs & Hl & Hev).
    rewrite app_nil_r. repeat split; auto.
    destruct Hs' as [-> | ->]; now rewrite ?Hst.
Qed.

End Step.

(** ** The application's run and its end *)

Ltac run_driver :=
  unfold handle_asgi_app, on_outcome, unresolved_handshake, send_http_error, when,
    mbind, M_bind, mret, M_ret, lift, raise, get_state, get_response, set_state,
    set_response, asend, asgi_put, access, log_exception.

Section Run.
Context `{E : Env}.

Lemma on_outcome_run (o : outcome) (self : WebsocketMixin) :
  on_outcome o self = (after_outcome o self, raised_by o).
Proof.
  destruct o; run_driver; simpl; try reflexivity.
  unfold after_outcome. simpl. now destruct (state_eqb (state self) CONNECTED).
Qed.

Lemma unresolved_handshake_run (self : WebsocketMixin) :
  unresolved_handshake self = (after_handshake_check self, Ok tt).
Proof.
  run_driver. unfold after_handshake_check. simpl.
  now destruct (state_eqb (state self) HANDSHAKE).
Qed.

Lemma handle_asgi_app_run (app : Scope -> App) (self : WebsocketMixin) :
  handle_asgi_app app self =
    (after_app (snd (run_app (app (scope self)) (with_put connect_message self)))
       (fst (run_app (app (scope self)) (with_put connect_message self))),
     raised_by (snd (run_app (app (scope self)) (with_put connect_message self)))).
Proof.
  unfold handle_asgi_app, mbind, M_bind, asgi_put. simpl.
  change (scope (with_put {[ "type" := VStr "websocket.connect" ]} self)) with (scope self).
  change ({[ "type" := VStr "websocket.connect" ]} : dict) with connect_message.
  destruct (run_app (app (scope self)) (with_put connect_message self)) as [self1 o].
  simpl. rewrite on_outcome_run.
  destruct o; simpl; try apply unresolved_handshake_run; reflexivity.
Qed.

(** What the end of the application does to the object, for every
    outcome. *)
Lemma after_app_frame (o : outcome) (self : WebsocketMixin) :
  reaches (state self) (state (after_app o self)) = true
  /\ (terminal (state self) = true -> terminal (state (after_app o self)) = true)
  /\ app_queue (after_app o self) = app_queue self
  /\ scope (after_app o self) = scope self
  /\ (raised_by o = Ok tt -> state (after_app o self) <> HANDSHAKE)
  /\ access_log (after_app o self) =
       access_log self ++
         match o with
         | Aborted _ => []
         | Returned | Raised | Cancelled =>
             if state_eqb (state self) HANDSHAKE then [(scope self, status_only 500)] else []
         end.
Proof.
  unfold after_app, after_handshake_check, after_outcome.
  destruct o, (state self) eqn:Hst; simpl; rewrite ?Hst; simpl; rewrite ?Hst, ?app_nil_r;
    repeat split; intros; simpl; rewrite ?Hst;
    try congruence; try reflexivity; try discriminate.
Qed.

Lemma after_outcome_frame (o : outcome) (self : WebsocketMixin) :
  moves (state self) (state (after_outcome o self)) = true
  /\ access_log (after_outcome o self) = access_log self
  /\ scope (after_outcome o self) = scope self
  /\ response (after_outcome o self) = response self
  /\ (state self = HANDSHAKE -> state (after_outcome o self) = HANDSHAKE).
Proof.
  destruct o; simpl; rewrite ?moves_refl; auto.
  destruct (state self) eqn:Hst; simpl; rewrite ?Hst; repeat split; congruence.
Qed.

Lemma after_handshake_check_frame (self : WebsocketMixin) :
  moves (state self) (state (after_handshake_check self)) = true
  /\ state (after_handshake_check self) <> HANDSHAKE
  /\ access_log (after_handshake_check self) =
       access_log self ++
         (if state_eqb (state self) HANDSHAKE then [(scope self, status_only 500)] else []).
Proof.
  unfold after_handshake_check.
  destruct (state self) eqn:Hst; simpl; rewrite ?Hst, ?app_nil_r;
    repeat split; congruence.
Qed.

(** The states along a run only move along [moves]. *)
Lemma run_app_reaches (a : App) :
  forall self : WebsocketMixin,
    reaches (state self) (state (fst (run_app a self))) = true.
Proof.
  induction a as [| | |x|message k IH|f k IH|f k IH]; intros self; simpl;
    try (apply moves_reaches, moves_refl).
  - destruct (asgi_send message self) as [self' r] eqn:Hrun.
    destruct (asgi_send_step message self self' r Hrun) as (Hm & _).
    eapply reaches_trans; [apply moves_reaches, Hm | apply IH].
  - exact (IH (with_response (f <$> response self) self)).
  - exact (IH (with_scope (f (scope self)) self)).
Qed.

End Run.

(** ** The lifecycle order *)

Section Order.
Context `{E : Env}.

Lemma classify_not_close (ty : pyval) :
  eq_str ty "websocket.close" = false -> classify ty <> KClose.
Proof.
  intros Hne Hk. pose proof (classify_cases ty) as Hc. rewrite Hk in Hc.
  subst ty. discriminate Hne.
Qed.

(** An instruction that is not a close keeps to the order of the
    specification. *)
Lemma asgi_send_spec_order (message : dict) (self : WebsocketMixin) :
  (forall ty, message !! "type" = Some ty -> eq_str ty "websocket.close" = false) ->
  spec_order (state self) (state (fst (asgi_send message self))) = true.
Proof.
  intros Hne. rewrite asgi_send_as_table. unfold asgi_send_table.
  destruct (message !! "type") as [ty|]; [|simpl; now destruct (state self)].
  pose proof (classify_not_close ty (Hne ty eq_refl)) as Hk.
  destruct (classify ty), (state self) eqn:Hst; try congruence; simpl;
    rewrite ?Hst; try reflexivity.
  - destruct (_asgi_send_rejection message self) as [self' r] eqn:Hrun.
    destruct (rejection_frame message self (or_intror Hst) self' r Hrun)
      as (_ & _ & _ & _ & _ & _ & Hm & Hc & Hd & Hh).
    simpl. rewrite Hst in Hm. specialize (Hh Hst). now destruct (state self').
  - destruct (send_frame message self) as [self' r] eqn:Hrun.
    destruct (send_frame_frame message self self' r Hrun) as (Hs' & _).
    simpl. now rewrite Hs', Hst.
Qed.

(** In [CLOSED] and [HTTPCLOSED] only the close branch is left. *)
Lemma asgi_send_terminal (message : dict) (self : WebsocketMixin) :
  terminal (state self) = true ->
  asgi_send message self =
    match message !! "type" with
    | None => (self, Raise (KeyError "type"))
    | Some ty =>
        if eq_str ty "websocket.close"
        then close_with_code message self
        else (self, Raise (UnexpectedMessage (state self) ty))
    end.
Proof.
  intros Ht. rewrite asgi_send_as_table. unfold asgi_send_table.
  destruct (message !! "type") as [ty|]; [|reflexivity].
  pose proof (classify_cases ty) as Hc.
  destruct (classify ty) eqn:Hk; try subst ty;
    destruct (state self); try discriminate Ht; try reflexivity;
    destruct Hc as (_ & _ & _ & _ & ->); reflexivity.
Qed.

End Order.

(** C2 (amended).  The state never goes back: each call of [asgi_send] and
    each step at the end of the application changes the state only along
    [moves], so no step re-enters [HANDSHAKE], [HTTPCLOSED] is entered only
    from [HANDSHAKE] or [RESPONSE], and [CLOSED] never directly from
    [HANDSHAKE]; every step but a close instruction keeps to the order
    [Handshake -> {Connected -> Closed} | {HttpResponse -> HttpClosed}], and a
    whole run ends in a state reachable along [moves].  In [CLOSED] and
    [HTTPCLOSED] every instruction but close raises and changes nothing; a
    close instruction is still taken there (as it is in [RESPONSE]): with a
    code it sends a close event and the state becomes [CLOSED]. *)
Theorem lifecycle_moves_forward `{E : Env} :
  (forall (message : dict) (self : WebsocketMixin),
      moves (state self) (state (fst (asgi_send message self))) = true)
  /\ (forall (message : dict) (self : WebsocketMixin),
        (forall ty, message !! "type" = Some ty -> eq_str ty "websocket.close" = false) ->
        spec_order (state self) (state (fst (asgi_send message self))) = true)
  /\ (forall (o : outcome) (self : WebsocketMixin),
        moves (state self) (state (fst (on_outcome o self))) = true
        /\ spec_order (state self) (state (fst (on_outcome o self))) = true)
  /\ (forall self : WebsocketMixin,
        moves (state self) (state (fst (unresolved_handshake self))) = true
        /\ spec_order (state self) (state (fst (unresolved_handshake self))) = true)
  /\ (forall (app : Scope -> App) (self : WebsocketMixin),
        reaches (state self) (state (fst (handle_asgi_app app self))) = true)
  /\ (forall a b : ASGIWebsocketState,
        moves a b = true ->
        (b = HANDSHAKE -> a = HANDSHAKE)
        /\ (b = HTTPCLOSED -> a = HANDSHAKE \/ a = RESPONSE \/ a = HTTPCLOSED)
        /\ (b = CLOSED -> a = CONNECTED \/ a = RESPONSE \/ a = HTTPCLOSED \/ a = CLOSED))
  /\ (forall (message : dict) (self : WebsocketMixin),
        terminal (state self) = true ->
        asgi_send message self =
          match message !! "type" with
          | None => (self, Raise (KeyError "type"))
          | Some ty =>
              if eq_str ty "websocket.close"
              then close_with_code message self
              else (self, Raise (UnexpectedMessage (state self) ty))
          end).
Proof.
  split; [|split; [|split; [|split; [|split; [|split]]]]].
  - intros message self. destruct (asgi_send message self) as [self' r] eqn:Hrun.
    now destruct (asgi_send_step message self self' r Hrun) as (Hm & _).
  - apply @asgi_send_spec_order.
  - intros o self. rewrite on_outcome_run. simpl fst.
    destruct o; simpl; rewrite ?moves_refl; try (now destruct (state self)).
    destruct (state self) eqn:Hst; simpl; rewrite ?Hst; auto.
  - intros self. rewrite unresolved_handshake_run. simpl fst.
    unfold after_handshake_check. destruct (state self) eqn:Hst; simpl; rewrite ?Hst; auto.
  - intros app self. rewrite handle_asgi_app_run. simpl fst.
    pose proof (run_app_reaches (app (scope self)) (with_put connect_message self)) as Hrun.
    simpl in Hrun.
    destruct (run_app (app (scope self)) (with_put connect_message self)) as [self1 o].
    simpl in *.
    destruct (after_app_frame o self1) as (Ho & _).
    eapply reaches_trans; eassumption.
  - intros a b Hm. destruct a, b; simpl in Hm; try discriminate Hm;
      repeat split; intros; try discriminate; auto.
  - apply @asgi_send_terminal.
Qed.

Lemma lifecycle_moves_forward_witness :
  spec_order HANDSHAKE
    (state (fst (asgi_send (E := example_env) (msg "websocket.accept" []) fresh))) = true
  /\ asgi_send (E := example_env) (msg "websocket.accept" []) (in_state CLOSED)
     = (in_state CLOSED, Raise (UnexpectedMessage CLOSED (VStr "websocket.accept"))).
Proof.
  destruct (lifecycle_moves_forward (E := example_env)) as (_ & Hord & _ & _ & _ & _ & Hterm).
  split.
  - apply (Hord (msg "websocket.accept" []) fresh).
    intros ty Hty. vm_compute in Hty. injection Hty as <-. reflexivity.
  - apply (Hterm (msg "websocket.accept" []) (in_state CLOSED)). reflexivity.
Defined.

(** C2 as stated fails: after a close in [HANDSHAKE] (a 403, state
    [HTTPCLOSED]) a second close, with a code, is taken: it sends a close
    event and the state becomes [CLOSED], reached from [HTTPCLOSED]. *)
Lemma closed_reached_from_httpclosed :
  asgi_send (E := example_env) (msg "websocket.close" []) fresh
  = (with_state HTTPCLOSED (refused (E := example_env) 403 fresh), Ok tt)
  /\ asgi_send (E := example_env) (msg "websocket.close" [("code", VInt 1000)])
       (with_state HTTPCLOSED (refused (E := example_env) 403 fresh))
     = (with_state CLOSED
          (with_sent (CloseConnection 1000)
             (with_state HTTPCLOSED (refused (E := example_env) 403 fresh))), Ok tt)
  /\ terminal HTTPCLOSED = true
  /\ spec_order HTTPCLOSED CLOSED = false
  /\ sent (with_state CLOSED
             (with_sent (CloseConnection 1000)
                (with_state HTTPCLOSED (refused (E := example_env) 403 fresh))))
     = [RejectConnection 403 server_headers false; CloseConnection 1000].
Proof. repeat split; vm_compute; reflexivity. Qed.

(** ** The access log *)

Section AccessLog.
Context `{E : Env}.

(** With no response stored, a call in [HANDSHAKE] that logs nothing
    changes nothing. *)
Lemma silent_in_handshake (message : dict) (self : WebsocketMixin) :
  state self = HANDSHAKE ->
  response self = None ->
  logged message self = [] ->
  fst (asgi_send message self) = self.
Proof.
  intros Hst Hr. rewrite asgi_send_as_table. unfold logged, asgi_send_table.
  destruct (message !! "type") as [ty|]; [|reflexivity].
  rewrite Hst. destruct (classify ty); try discriminate; try reflexivity.
  intros _. now rewrite rejection_without_response.
Qed.

Lemma run_app_logs (a : App) (base : list (Scope * dict)) :
  forall self : WebsocketMixin,
    (exists l, access_log self = base ++ l
               /\ (l = [] -> state self = HANDSHAKE /\ response self = None)) ->
    exists l, access_log (fst (run_app a self)) = base ++ l
              /\ (l = [] -> state (fst (run_app a self)) = HANDSHAKE
                            /\ response (fst (run_app a self)) = None).
Proof.
  induction a as [| | |x|message k IH|f k IH|f k IH]; intros self Hinv; simpl;
    try exact Hinv.
  - destruct (asgi_send message self) as [self' r] eqn:Hrun.
    apply IH. destruct Hinv as (l & Hl & Hempty).
    destruct (asgi_send_step message self self' r Hrun) as (_ & Hlog & _).
    exists (l ++ logged message self). split.
    + rewrite Hlog, Hl. symmetry. apply List.app_assoc.
    + intros Hnil. apply app_eq_nil in Hnil as [-> Hsilent].
      destruct (Hempty eq_refl) as [Hst Hr].
      pose proof (silent_in_handshake message self Hst Hr Hsilent) as Hsame.
      rewrite Hrun in Hsame. simpl in Hsame. subst self'. now split.
  - apply IH. destruct Hinv as (l & Hl & Hempty). exists l. split; [exact Hl|].
    intros Hnil. destruct (Hempty Hnil) as [Hst Hr]. simpl. now rewrite Hr.
  - apply IH. exact Hinv.
Qed.

End AccessLog.

(** C7 (amended).  The access logger is called once by each accept taken
    in [HANDSHAKE] (status 101), once by each [websocket.http.response.start]
    taken in [HANDSHAKE] (with that message), once by each forced error
    response (403 for a close in [HANDSHAKE], 500 when the application ends
    in [HANDSHAKE] and its exception, if any, is caught) and nowhere else;
    the forced 500 is logged with the scope as it is then.  A connection
    that starts in [HANDSHAKE] with no response stored has at least one
    record when [handle_asgi_app] returns; nothing limits the records to
    one. *)
Theorem access_log_records `{E : Env} :
  (forall (message : dict) (self : WebsocketMixin),
      access_log (fst (asgi_send message self)) = access_log self ++ logged message self)
  /\ (forall (app : Scope -> App) (self self1 : WebsocketMixin) (o : outcome),
        run_app (app (scope self)) (with_put connect_message self) = (self1, o) ->
        access_log (fst (handle_asgi_app app self)) =
          access_log self1
          ++ match o with
             | Aborted _ => []
             | Returned | Raised | Cancelled =>
                 if state_eqb (state self1) HANDSHAKE
                 then [(scope self1, status_only 500)] else []
             end)
  /\ (forall (app : Scope -> App) (self : WebsocketMixin),
        state self = HANDSHAKE ->
        response self = None ->
        snd (handle_asgi_app app self) = Ok tt ->
        exists entry rest,
          access_log (fst (handle_asgi_app app self)) = access_log self ++ entry :: rest).
Proof.
  split; [|split].
  - intros message self. destruct (asgi_send message self) as [self' r] eqn:Hrun.
    now destruct (asgi_send_step message self self' r Hrun) as (_ & Hlog & _).
  - intros app self self1 o Hrun. rewrite handle_asgi_app_run, Hrun. simpl fst. simpl snd.
    now destruct (after_app_frame o self1) as (_ & _ & _ & _ & _ & Hlog).
  - intros app self Hst Hr. rewrite handle_asgi_app_run. simpl fst. simpl snd.
    destruct (run_app_logs (app (scope self)) (access_log self) (with_put connect_message self))
      as (l & Hl & Hempty).
    { exists []. split; [symmetry; apply app_nil_r | now intros _]. }
    destruct (run_app (app (scope self)) (with_put connect_message self)) as [self1 o].
    simpl in *. intros Hret.
    destruct (after_app_frame o self1) as (_ & _ & _ & _ & _ & Hlog).
    rewrite Hlog, Hl.
    destruct l as [|entry rest].
    + destruct (Hempty eq_refl) as [Hst1 _]. rewrite Hst1.
      destruct o; try discriminate Hret; simpl; rewrite app_nil_r; eauto.
    + rewrite <- List.app_assoc. simpl. eauto.
Qed.

Lemma access_log_records_witness :
  exists entry rest,
    access_log (fst (handle_asgi_app (E := example_env) (fun _ => AppReturn) fresh))
    = access_log fresh ++ entry :: rest.
Proof.
  destruct (access_log_records (E := example_env)) as (_ & _ & Hone).
  apply (Hone (fun _ => AppReturn) fresh); reflexivity.
Defined.

(** C7 as stated fails: a [websocket.http.response.start] followed by the
    end of the application leaves two records (the staged 404 and the
    forced 500), and two start instructions followed by the body leave two
    as well. *)
Lemma access_logged_twice :
  access_log
    (fst (handle_asgi_app (E := example_env)
            (fun _ =>
               AppSend (msg "websocket.http.response.start"
                          [("status", VInt 404); ("headers", VList [])])
                 (fun _ => AppReturn))
            fresh))
  = [(empty_scope, msg "websocket.http.response.start"
                     [("status", VInt 404); ("headers", VList [])]);
     (empty_scope, status_only 500)]
  /\ access_log
       (fst (handle_asgi_app (E := example_env)
               (fun _ =>
                  AppSend (msg "websocket.http.response.start"
                             [("status", VInt 404); ("headers", VList [])])
                    (fun _ =>
                       AppSend (msg "websocket.http.response.start"
                                  [("status", VInt 410); ("headers", VList [])])
                         (fun _ =>
                            AppSend (msg "websocket.http.response.body" [])
                              (fun _ => AppReturn))))
               fresh))
     = [(empty_scope, msg "websocket.http.response.start"
                        [("status", VInt 404); ("headers", VList [])]);
        (empty_scope, msg "websocket.http.response.start"
                        [("status", VInt 410); ("headers", VList [])])].
Proof. split; vm_compute; reflexivity. Qed.

(** The last part of C7 speaks of runs in which [handle_asgi_app]
    returns: an application that raises [SystemExit] before any instruction
    leaves the access log empty. *)
Example aborted_leaves_no_record :
  access_log (fst (handle_asgi_app (E := example_env) (fun _ => AppAbort SystemExit) fresh))
  = [].
Proof. vm_compute. reflexivity. Qed.

(** ** The end of the application *)

(** C8 (amended).  An application that returns, is cancelled or raises
    an [Exception] never makes [handle_asgi_app] raise.  When the application
    raises an [Exception], the error is logged (if an error logger is
    configured) and, in state [CONNECTED], one close event with the
    abnormal-closure code is sent and the state becomes [CLOSED].  When the
    application has ended in state [HANDSHAKE] -- by returning, by raising an
    [Exception] or by being cancelled -- one 500 rejection is sent and the
    state becomes [HTTPCLOSED].  A cancellation is not logged and forces
    nothing else: outside [HANDSHAKE] it leaves the object as it was.  An
    exception that is neither an [Exception] nor a cancellation is caught by
    neither clause: [handle_asgi_app] raises it, and the object is left as the
    application left it, with nothing logged, nothing sent and the state
    unchanged, [HANDSHAKE] included. *)
Theorem application_end `{E : Env} (app : Scope -> App) (self self1 : WebsocketMixin) (o : outcome) :
  run_app (app (scope self)) (with_put connect_message self) = (self1, o) ->
  (forall x : fatal,
      o = Aborted x -> handle_asgi_app app self = (self1, Raise (Fatal x)))
  /\ ((forall x : fatal, o <> Aborted x) ->
      exists self2,
        handle_asgi_app app self = (self2, Ok tt)
        /\ (o = Raised ->
            error_log self2
            = if error_logger self1 then error_log self1 ++ ["Error in ASGI Framework"]
              else error_log self1)
        /\ (o <> Raised -> error_log self2 = error_log self1)
        /\ (o = Raised -> state self1 = CONNECTED ->
            sent self2 = sent self1 ++ [CloseConnection ABNORMAL_CLOSURE]
            /\ state self2 = CLOSED)
        /\ (state self1 = HANDSHAKE ->
            sent self2 = sent self1 ++ [RejectConnection 500 response_headers false]
            /\ state self2 = HTTPCLOSED)
        /\ (o <> Raised -> state self1 <> HANDSHAKE -> self2 = self1)
        /\ (state self1 <> HANDSHAKE -> state self1 <> CONNECTED ->
            sent self2 = sent self1 /\ state self2 = state self1)).
Proof.
  intros Hrun. rewrite handle_asgi_app_run, Hrun. simpl fst. simpl snd. split.
  - intros x ->. reflexivity.
  - intros Hcaught.
    assert (Hret : raised_by o = Ok tt)
      by (destruct o; try reflexivity; now destruct (Hcaught x)).
    rewrite Hret. eexists. split; [reflexivity|].
    unfold after_app, after_handshake_check.
    destruct o; try discriminate Hret; simpl; repeat split; intros; try congruence;
      destruct (state self1) eqn:Hst; simpl; rewrite ?Hst; simpl;
      try congruence; try reflexivity.
Qed.

Lemma application_end_witness :
  (exists self2,
     handle_asgi_app (E := example_env)
       (fun _ => AppSend (msg "websocket.accept" []) (fun _ => AppRaise)) fresh
     = (self2, Ok tt)
     /\ sent self2 = [AcceptConnection [PerMessageDeflate]; CloseConnection ABNORMAL_CLOSURE]
     /\ state self2 = CLOSED)
  /\ handle_asgi_app (E := example_env) (fun _ => AppAbort KeyboardInterrupt) fresh
     = (with_put connect_message fresh, Raise (Fatal KeyboardInterrupt)).
Proof.
  split.
  - destruct (application_end (E := example_env)
                (fun _ => AppSend (msg "websocket.accept" []) (fun _ => AppRaise))
                fresh (accepted (with_put connect_message fresh)) Raised eq_refl)
      as (_ & Hcaught).
    destruct Hcaught as (self2 & Hrun & _ & _ & Hclose & _); [discriminate|].
    exists self2. split; [exact Hrun|].
    exact (Hclose eq_refl eq_refl).
  - destruct (application_end (E := example_env) (fun _ => AppAbort KeyboardInterrupt)
                fresh (with_put connect_message fresh) (Aborted KeyboardInterrupt) eq_refl)
      as (Hfatal & _).
    exact (Hfatal KeyboardInterrupt eq_refl).
Defined.

(** C8 as stated fails, twice: a cancellation while the state is still
    [HANDSHAKE] is followed by the forced 500 rejection; and an application
    that raises [SystemExit], a non-cancellation exception, makes
    [handle_asgi_app] raise it, with nothing logged or sent and the state
    still [HANDSHAKE]. *)
Lemma cancelled_in_handshake_forces_500 :
  handle_asgi_app (E := example_env) (fun _ => AppCancelled) fresh
  = (with_state HTTPCLOSED
       (refused (E := example_env) 500 (with_put connect_message fresh)), Ok tt)
  /\ sent (with_state HTTPCLOSED
             (refused (E := example_env) 500 (with_put connect_message fresh)))
     = [RejectConnection 500 server_headers false]
  /\ handle_asgi_app (E := example_env) (fun _ => AppAbort SystemExit) fresh
     = (with_put connect_message fresh, Raise (Fatal SystemExit))
  /\ state (with_put connect_message fresh) = HANDSHAKE
  /\ sent (with_put connect_message fresh) = []
  /\ error_log (with_put connect_message fresh) = [].
Proof. repeat split; vm_compute; reflexivity. Qed.

(** ** Data frames *)

Lemma bytes_present (message : dict) (raw : pyval) :
  message !! "bytes" = Some raw ->
  raw <> VNone ->
  negb (is_None (dict_get message "bytes" VNone)) = true.
Proof. intros Hb Hn. unfold dict_get. rewrite Hb. simpl. now destruct raw. Qed.

Lemma bytes_missing (message : dict) :
  message !! "bytes" = None \/ message !! "bytes" = Some VNone ->
  negb (is_None (dict_get message "bytes" VNone)) = false.
Proof. intros [Hb | Hb]; unfold dict_get; now rewrite Hb. Qed.

(** C6 (amended).  A send instruction in state [CONNECTED]: when its
    [bytes] field is a bytes value, exactly one binary data frame with those
    bytes is sent; any other non-null [bytes] field goes through [bytes(...)],
    and when that raises nothing is sent; when the [bytes] field is null or
    missing and the [text] field is present but not a [str], [TypeError] is
    raised and nothing is sent, and when it is a [str] one text data frame
    is sent.  The state stays [CONNECTED] in every case. *)
Theorem send_in_connected `{E : Env} (message : dict) (self : WebsocketMixin) :
  message !! "type" = Some (VStr "websocket.send") ->
  state self = CONNECTED ->
  (forall b : list byte,
      message !! "bytes" = Some (VBytes b) ->
      asgi_send message self = (with_sent (MessageEvent (BytesMessage b)) self, Ok tt)
      /\ sent (with_sent (MessageEvent (BytesMessage b)) self)
         = sent self ++ [MessageEvent (BytesMessage b)])
  /\ (forall (raw : pyval) (e : exn),
        message !! "bytes" = Some raw ->
        raw <> VNone ->
        py_bytes raw = Raise e ->
        asgi_send message self = (self, Raise e))
  /\ (forall v : pyval,
        message !! "bytes" = None \/ message !! "bytes" = Some VNone ->
        message !! "text" = Some v ->
        (forall s, v <> VStr s) ->
        asgi_send message self = (self, Raise TypeError))
  /\ (forall s : string,
        message !! "bytes" = None \/ message !! "bytes" = Some VNone ->
        message !! "text" = Some (VStr s) ->
        asgi_send message self = (with_sent (MessageEvent (TextMessage s)) self, Ok tt))
  /\ state (fst (asgi_send message self)) = CONNECTED.
Proof.
  intros Hty Hst.
  assert (Hsend : asgi_send message self = send_frame message self)
    by exact (asgi_send_send message self Hty Hst).
  rewrite Hsend. split; [|split; [|split; [|split]]].
  - intros b Hb. unfold send_frame.
    rewrite (bytes_present message (VBytes b) Hb) by discriminate.
    rewrite Hb. simpl. now split.
  - intros raw e Hb Hn He. unfold send_frame.
    rewrite (bytes_present message raw Hb Hn). now rewrite Hb, He.
  - intros v Hb Ht Hv. unfold send_frame. rewrite (bytes_missing message Hb), Ht.
    destruct v; try reflexivity. now destruct (Hv s).
  - intros s Hb Ht. unfold send_frame. now rewrite (bytes_missing message Hb), Ht.
  - destruct (send_frame message self) as [self' r] eqn:Hrun.
    destruct (send_frame_frame message self self' r Hrun) as (Hs' & _).
    simpl. now rewrite Hs'.
Qed.

Lemma send_in_connected_witness :
  asgi_send (E := example_env) (msg "websocket.send" [("bytes", VBytes [x68; x69]%byte)])
    (in_state CONNECTED)
  = (with_sent (MessageEvent (BytesMessage [x68; x69]%byte)) (in_state CONNECTED), Ok tt)
  /\ asgi_send (E := example_env) (msg "websocket.send" [("text", VInt 7)]) (in_state CONNECTED)
     = (in_state CONNECTED, Raise TypeError).
Proof.
  split.
  - destruct (send_in_connected (E := example_env)
                (msg "websocket.send" [("bytes", VBytes [x68; x69]%byte)]) (in_state CONNECTED))
      as (Hbytes & _); [reflexivity | reflexivity |].
    apply (Hbytes [x68; x69]%byte). reflexivity.
  - destruct (send_in_connected (E := example_env)
                (msg "websocket.send" [("text", VInt 7)]) (in_state CONNECTED))
      as (_ & _ & Htext & _); [reflexivity | reflexivity |].
    apply (Htext (VInt 7)); [left; reflexivity | reflexivity | discriminate].
Defined.

(** C6 as stated fails: a [bytes] field that is not null but holds a
    [str] makes [bytes(...)] raise [TypeError]; no data frame is sent. *)
Lemma send_str_as_bytes_raises :
  asgi_send (E := example_env) (msg "websocket.send" [("bytes", VStr "hi")]) (in_state CONNECTED)
  = (in_state CONNECTED, Raise TypeError)
  /\ sent (fst (asgi_send (E := example_env) (msg "websocket.send" [("bytes", VStr "hi")])
                  (in_state CONNECTED))) = [].
Proof. split; vm_compute; reflexivity. Qed.

(** C9 (amended).  A send instruction in state [CONNECTED] that carries
    both a bytes value and a [text] field is not refused: the bytes are
    sent as one binary data frame and the [text] field is not looked at.
    One that carries neither raises before anything is sent: [TypeError]
    when the [text] field is null, [KeyError] when it is missing. *)
Theorem send_both_or_neither `{E : Env} (message : dict) (self : WebsocketMixin) :
  message !! "type" = Some (VStr "websocket.send") ->
  state self = CONNECTED ->
  (forall (b : list byte) (t : pyval),
      message !! "bytes" = Some (VBytes b) ->
      message !! "text" = Some t ->
      asgi_send message self = (with_sent (MessageEvent (BytesMessage b)) self, Ok tt))
  /\ (message !! "bytes" = None \/ message !! "bytes" = Some VNone ->
      (message !! "text" = Some VNone ->
       asgi_send message self = (self, Raise TypeError))
      /\ (message !! "text" = None ->
          asgi_send message self = (self, Raise (KeyError "text")))).
Proof.
  intros Hty Hst. rewrite (asgi_send_send message self Hty Hst). split.
  - intros b t Hb _. rewrite (bytes_present message (VBytes b) Hb) by discriminate.
    now rewrite Hb.
  - intros Hb. rewrite (bytes_missing message Hb).
    split; intros Ht; now rewrite Ht.
Qed.

Lemma send_both_or_neither_witness :
  asgi_send (E := example_env)
    (msg "websocket.send" [("bytes", VNone); ("text", VNone)]) (in_state CONNECTED)
  = (in_state CONNECTED, Raise TypeError).
Proof.
  destruct (send_both_or_neither (E := example_env)
              (msg "websocket.send" [("bytes", VNone); ("text", VNone)]) (in_state CONNECTED))
    as (_ & Hneither); [reflexivity | reflexivity |].
  destruct Hneither as (Hnull & _); [right; reflexivity|].
  apply Hnull. reflexivity.
Defined.

(** C9 as stated fails: a send instruction carrying both a bytes value and
    a text is taken, and the bytes are sent. *)
Lemma send_with_both_fields_accepted :
  asgi_send (E := example_env)
    (msg "websocket.send" [("bytes", VBytes [x68; x69]%byte); ("text", VStr "hi")])
    (in_state CONNECTED)
  = (with_sent (MessageEvent (BytesMessage [x68; x69]%byte)) (in_state CONNECTED), Ok tt)
  /\ sent (with_sent (MessageEvent (BytesMessage [x68; x69]%byte)) (in_state CONNECTED))
     = [MessageEvent (BytesMessage [x68; x69]%byte)].
Proof. split; vm_compute; reflexivity. Qed.

(** ** The body of a response that was never started *)

Lemma response_kept `{E : Env} (message : dict) (self : WebsocketMixin) :
  (forall ty, message !! "type" = Some ty ->
              eq_str ty "websocket.http.response.start" = false) ->
  response (fst (asgi_send message self)) = response self.
Proof.
  intros Hne. rewrite asgi_send_as_table. unfold asgi_send_table.
  destruct (message !! "type") as [ty|]; [|reflexivity].
  specialize (Hne ty eq_refl). pose proof (classify_cases ty) as Hc.
  destruct (classify ty), (state self) eqn:Hst; try reflexivity;
    try (subst ty; discriminate Hne).
  - destruct (_asgi_send_rejection message self) as [self' r] eqn:Hrun.
    now destruct (rejection_frame message self (or_introl Hst) self' r Hrun)
      as (_ & _ & Hr & _).
  - destruct (_asgi_send_rejection message self) as [self' r] eqn:Hrun.
    now destruct (rejection_frame message self (or_intror Hst) self' r Hrun)
      as (_ & _ & Hr & _).
  - destruct (send_frame message self) as [self' r] eqn:Hrun.
    now destruct (send_frame_frame message self self' r Hrun) as (_ & _ & _ & Hr & _).
  - destruct (close_with_code message self) as [self' r] eqn:Hrun.
    now destruct (close_with_code_frame message self self' r Hrun) as (_ & _ & _ & Hr & _).
  - destruct (close_with_code message self) as [self' r] eqn:Hrun.
    now destruct (close_with_code_frame message self self' r Hrun) as (_ & _ & _ & Hr & _).
  - destruct (close_with_code message self) as [self' r] eqn:Hrun.
    now destruct (close_with_code_frame message self self' r Hrun) as (_ & _ & _ & Hr & _).
  - destruct (close_with_code message self) as [self' r] eqn:Hrun.
    now destruct (close_with_code_frame message self self' r Hrun) as (_ & _ & _ & Hr & _).
Qed.

(** C10.  A [websocket.http.response.body] instruction taken while no
    response is stored ([self.response] is [None], which it stays until a
    [websocket.http.response.start] is taken in [HANDSHAKE]) subscripts
    [None]: [asgi_send] raises [TypeError], not [UnexpectedMessage], sends
    nothing and leaves the object as it was. *)
Theorem body_without_start `{E : Env} (message : dict) (self : WebsocketMixin) :
  message !! "type" = Some (VStr "websocket.http.response.body") ->
  state self = HANDSHAKE ->
  response self = None ->
  asgi_send message self = (self, Raise TypeError)
  /\ (forall st kind, TypeError <> UnexpectedMessage st kind)
  /\ (forall earlier : dict,
        (forall ty, earlier !! "type" = Some ty ->
                    eq_str ty "websocket.http.response.start" = false) ->
        response (fst (asgi_send earlier self)) = None)
  /\ (forall start : dict,
        start !! "type" = Some (VStr "websocket.http.response.start") ->
        asgi_send start self = (with_access start (with_response (Some start) self), Ok tt)).
Proof.
  intros Hty Hst Hr. split; [|split; [|split]].
  - rewrite asgi_send_body; [now apply rejection_without_response | exact Hty | now left].
  - discriminate.
  - intros earlier Hne. now rewrite response_kept.
  - intros start Hs. now apply asgi_send_start.
Qed.

Lemma body_without_start_witness :
  asgi_send (E := example_env) (msg "websocket.http.response.body" [("body", VBytes [])]) fresh
  = (fresh, Raise TypeError).
Proof.
  apply (body_without_start (E := example_env)
           (msg "websocket.http.response.body" [("body", VBytes [])]) fresh);
    reflexivity.
Defined.

(** ** The scope built from the handshake request *)

Lemma str_partition_spec (sep : ascii) (s : string) :
  forall before found after : string,
    str_partition sep s = (before, found, after) ->
    s = before +:+ found +:+ after
    /\ has_char sep before = false
    /\ (found = String sep "" \/ found = "" /\ after = "" /\ has_char sep s = false).
Proof.
  induction s as [|c rest IH]; intros before found after; simpl.
  - intros Hp. simplify_eq. repeat split. right. repeat split.
  - destruct (Ascii.eqb c sep) eqn:Hc.
    + intros Hp. simplify_eq. apply Ascii.eqb_eq in Hc. subst c.
      repeat split. now left.
    + destruct (str_partition sep rest) as [[b f] a] eqn:Hrest.
      intros Hp. simplify_eq.
      destruct (IH b found after eq_refl) as (Hs & Hb & Hf).
      rewrite string_append_cons. simpl. rewrite Hc. simpl.
      split; [now rewrite <- Hs|]. split; [exact Hb|].
      destruct Hf as [Hf | (Hf & Ha & Hn)]; [now left | right; auto].
Qed.

(** C5.  The scope built from a handshake request: its path is
    [unquote] of the target up to the first question mark, its query string
    the rest of the target, not decoded, as ASCII bytes, and its headers
    start with a host header carrying the request's host, followed by the
    request's own headers.  A scope is built whenever the query part is
    ASCII, and the application is run with it.  For the target [/chat?x=1]
    and the host [example.com] the path is [/chat], the query string [x=1]
    and the first header [(host, example.com)]. *)
Theorem scope_from_request `{E : Env}
    (event : Request) (self : WebsocketMixin) (path found query : string) :
  str_partition "?" (target event) = (path, found, query) ->
  (target event = path +:+ found +:+ query
   /\ has_char "?" path = false
   /\ (found = "?" \/ found = "" /\ query = "" /\ has_char "?" (target event) = false))
  /\ (forall sc : Scope,
        build_scope event self = Ok sc ->
        scope_path sc = unquote path
        /\ scope_query_string sc = ascii_bytes query
        /\ scope_headers sc = (ascii_bytes "host", encode_utf8 (host event)) :: extra_headers event)
  /\ (forallb is_ascii (list_ascii_of_string query) = true ->
      exists sc : Scope,
        build_scope event self = Ok sc
        /\ forall app : Scope -> App,
             handle_websocket app event self = handle_asgi_app app (with_scope sc self))
  /\ (target event = "/chat?x=1" ->
      host event = "example.com" ->
      unquote "/chat" = "/chat" ->
      exists sc : Scope,
        build_scope event self = Ok sc
        /\ scope_path sc = "/chat"
        /\ scope_query_string sc = ascii_bytes "x=1"
        /\ scope_headers sc
           = (ascii_bytes "host", ascii_bytes "example.com") :: extra_headers event).
Proof.
  intros Hp. split; [|split; [|split]].
  - exact (str_partition_spec "?" (target event) path found query Hp).
  - intros sc. unfold build_scope, encode_ascii. rewrite Hp.
    destruct (forallb is_ascii (list_ascii_of_string query)); [|discriminate].
    intros Hsc. simplify_eq. simpl. auto.
  - intros Hq. unfold handle_websocket, build_scope, encode_ascii, mbind, M_bind, set_scope.
    rewrite Hp, Hq. eexists. split; [reflexivity|]. intros app. reflexivity.
  - intros Ht Hh Hu. rewrite Ht in Hp. vm_compute in Hp. simplify_eq.
    unfold build_scope. rewrite Ht. simpl. rewrite Hh, Hu.
    eexists. split; [reflexivity|]. simpl. repeat split.
Qed.

Lemma scope_from_request_witness :
  exists sc : Scope,
    build_scope (E := example_env) chat_request fresh = Ok sc
    /\ scope_path sc = "/chat"
    /\ scope_query_string sc = ascii_bytes "x=1"
    /\ scope_headers sc
       = (ascii_bytes "host", ascii_bytes "example.com") :: extra_headers chat_request.
Proof.
  destruct (scope_from_request (E := example_env) chat_request fresh "/chat" "?" "x=1" eq_refl)
    as (_ & _ & _ & Hchat).
  apply Hchat; reflexivity.
Defined.

(** ** The scenarios of the specification, run on the model *)

(** A close instruction in [HANDSHAKE]: one 403 rejection, state
    [HTTPCLOSED], no data frame. *)
Example close_in_handshake :
  asgi_send (E := example_env) (msg "websocket.close" []) fresh
  = (with_state HTTPCLOSED (refused (E := example_env) 403 fresh), Ok tt)
  /\ sent (with_state HTTPCLOSED (refused (E := example_env) 403 fresh))
     = [RejectConnection 403 server_headers false].
Proof. split; vm_compute; reflexivity. Qed.

(** A 404 response with two headers and a final body of five bytes: one
    rejection with a body, one final body chunk, state [HTTPCLOSED], and a
    disconnect message for the application. *)
Example response_then_body :
  let start :=
    msg "websocket.http.response.start"
      [("status", VInt 404);
       ("headers", VList [VList [VBytes (ascii_bytes "a"); VBytes (ascii_bytes " 1 ")];
                          VList [VBytes (ascii_bytes "b"); VBytes (ascii_bytes "2")]])] in
  let body :=
    msg "websocket.http.response.body"
      [("body", VBytes (ascii_bytes "hello")); ("more_body", VBool false)] in
  let final :=
    fst (asgi_send (E := example_env) body
           (fst (asgi_send (E := example_env) start fresh))) in
  sent final
  = [RejectConnection 404
       [(ascii_bytes "a", ascii_bytes "1"); (ascii_bytes "b", ascii_bytes "2");
        (ascii_bytes "server", ascii_bytes "hypercorn")] true;
     RejectData (ascii_bytes "hello") true]
  /\ state final = HTTPCLOSED
  /\ app_queue final = [{[ "type" := VStr "websocket.disconnect" ]}].
Proof. repeat split; vm_compute; reflexivity. Qed.

(** * Further properties of the code *)

(** ** The buffer beyond its limit and across types *)

(** X1.  A fragment of the other type than the content held raises
    [TypeError] and leaves the buffer as it was, whatever the limit. *)
Theorem extend_type_mismatch (self : WebsocketBuffer) (e : Message) (c : content) :
  value self = Some c ->
  is_text e = negb (content_is_text c) ->
  extend e self = (self, Raise TypeError).
Proof.
  intros Hv Ht. destruct self as [v lim]. simpl in Hv. subst v.
  unfold extend. simpl. destruct c, e; simpl in Ht; try discriminate Ht; reflexivity.
Qed.

Lemma extend_type_mismatch_witness :
  extend (TextMessage "hi") (mkBuffer (Some (CBytes [x61]%byte)) 10)
  = (mkBuffer (Some (CBytes [x61]%byte)) 10, Raise TypeError).
Proof.
  apply (extend_type_mismatch (mkBuffer (Some (CBytes [x61]%byte)) 10) (TextMessage "hi")
           (CBytes [x61]%byte)); reflexivity.
Defined.

Lemma content_add_len (c c' : content) (e : Message) :
  content_add c e = Ok c' -> content_len c' = (content_len c + message_len e)%nat.
Proof.
  destruct c, e; simpl; intros Hadd; simplify_eq; simpl.
  - apply string_length_append.
  - apply length_app.
Qed.

(** A buffer already over its limit refuses every fragment. *)
Lemma extend_when_over (self : WebsocketBuffer) (e : Message) :
  max_length self < Z.of_nat (value_len (value self)) ->
  snd (extend e self) = Raise FrameTooLarge \/ snd (extend e self) = Raise TypeError.
Proof.
  intros Hover. unfold extend.
  destruct (value self) as [c|] eqn:Hv; simpl in Hover.
  - destruct (content_add c e) as [c'|err] eqn:Hadd.
    + pose proof (content_add_len c c' e Hadd) as Hlen.
      replace (Z.of_nat (content_len c') >? max_length self) with true; [now left|].
      symmetry. apply Z.gtb_lt. lia.
    + right. simpl. destruct c, e; simpl in Hadd; congruence.
  - destruct e; simpl;
      match goal with
      | |- context [?a >? ?b] =>
          replace (a >? b) with true; [now left | symmetry; apply Z.gtb_lt; lia]
      end.
Qed.

(** X2.  [FrameTooLarge] is raised after the fragment was appended: the
    buffer then holds more than its limit, and every later [extend] raises
    as well ([FrameTooLarge], or [TypeError] for a fragment of the other
    type) until [clear] empties the buffer. *)
Theorem frame_too_large_sticks (self self' : WebsocketBuffer) (e : Message) :
  extend e self = (self', Raise FrameTooLarge) ->
  max_length self' = max_length self
  /\ max_length self' < Z.of_nat (value_len (value self'))
  /\ (forall e' : Message,
        snd (extend e' self') = Raise FrameTooLarge
        \/ snd (extend e' self') = Raise TypeError)
  /\ value (clear self') = None.
Proof.
  intros Hrun.
  assert (Hfacts : max_length self' = max_length self
                   /\ max_length self' < Z.of_nat (value_len (value self'))).
  { unfold extend in Hrun.
    destruct (content_add _ e) as [c'|err] eqn:Hadd.
    - destruct (Z.of_nat (content_len c') >? max_length self) eqn:Hgt; simplify_eq.
      simpl. split; [reflexivity|]. now apply Z.gtb_lt in Hgt.
    - assert (err = TypeError) as ->.
      { destruct (value self) as [[]|], e; simpl in Hadd; congruence. }
      simplify_eq. }
  destruct Hfacts as [Hmax Hover].
  repeat split; try assumption.
  intros e'. now apply extend_when_over.
Qed.

Lemma frame_too_large_sticks_witness :
  snd (extend (BytesMessage []) (mkBuffer (Some (CBytes [x61; x62]%byte)) 1))
  = Raise FrameTooLarge
  \/ snd (extend (BytesMessage []) (mkBuffer (Some (CBytes [x61; x62]%byte)) 1))
     = Raise TypeError.
Proof.
  destruct (frame_too_large_sticks (mkBuffer (Some (CBytes [x61]%byte)) 1)
              (mkBuffer (Some (CBytes [x61; x62]%byte)) 1) (BytesMessage [x62]%byte) eq_refl)
    as (_ & _ & Hlater & _).
  apply Hlater.
Defined.

Lemma to_message_lookups (self : WebsocketBuffer) :
  to_message self !! "type" = Some (VStr "websocket.receive")
  /\ to_message self !! "bytes"
     = Some (match value self with Some (CBytes b) => VBytes b | _ => VNone end)
  /\ to_message self !! "text"
     = Some (match value self with Some (CText s) => VStr s | _ => VNone end).
Proof. unfold to_message. repeat split; now simplify_map_eq. Qed.

(** X3.  The message made from a buffer filled by same-typed fragments
    within the limit is a [websocket.receive] whose field of the fragments'
    type holds the fragments joined and whose other field is [None]; for no
    fragments both fields are [None]. *)
Theorem to_message_after_extend (limit : Z) (events : list Message) :
  same_typed events ->
  Z.of_nat (total_len events) <= limit ->
  exists self,
    extend_all events (WebsocketBuffer_init limit) = (self, Ok tt)
    /\ to_message self !! "type" = Some (VStr "websocket.receive")
    /\ match events with
       | [] =>
           to_message self !! "bytes" = Some VNone /\ to_message self !! "text" = Some VNone
       | e :: _ =>
           if is_text e
           then to_message self !! "text" = Some (VStr (join_text (map text_of events)))
                /\ to_message self !! "bytes" = Some VNone
           else to_message self !! "bytes"
                = Some (VBytes (List.concat (map bytes_of events)))
                /\ to_message self !! "text" = Some VNone
       end.
Proof.
  intros Hs Hlen. eexists. split; [now apply extend_all_within|].
  destruct (to_message_lookups (mkBuffer (joined events) limit)) as (Ht & Hb & Hx).
  split; [exact Ht|]. rewrite Hb, Hx. simpl value.
  destruct events as [|e rest]; [now split|].
  unfold joined. destruct (is_text e); now split.
Qed.

Lemma to_message_after_extend_witness :
  exists self,
    extend_all [TextMessage "he"; TextMessage "y"] (WebsocketBuffer_init 3) = (self, Ok tt)
    /\ to_message self !! "text" = Some (VStr "hey")
    /\ to_message self !! "bytes" = Some VNone.
Proof.
  destruct (to_message_after_extend 3 [TextMessage "he"; TextMessage "y"])
    as (self & Hrun & _ & Hfields); [left; reflexivity | vm_compute; discriminate |].
  exists self. split; [exact Hrun | exact Hfields].
Defined.

(** X4.  What was received can be sent back: the message made from a
    buffer, relabelled [websocket.send], is sent in [CONNECTED] as one data
    frame of the buffer's type with the buffer's content; made from an empty
    buffer it raises [TypeError] and nothing is sent. *)
Theorem echo_received `{E : Env} (buffer : WebsocketBuffer) (self : WebsocketMixin) :
  state self = CONNECTED ->
  asgi_send (<["type" := VStr "websocket.send"]> (to_message buffer)) self =
    match value buffer with
    | Some c => (with_sent (MessageEvent (frame_of c)) self, Ok tt)
    | None => (self, Raise TypeError)
    end.
Proof.
  intros Hst.
  destruct (to_message_lookups buffer) as (_ & Hb & Hx).
  rewrite asgi_send_send; [| now simplify_map_eq | exact Hst].
  unfold dict_get. rewrite !lookup_insert_ne by discriminate. rewrite Hb, Hx. simpl.
  destruct (value buffer) as [[s|b]|]; reflexivity.
Qed.

Lemma echo_received_witness :
  asgi_send (E := example_env)
    (<["type" := VStr "websocket.send"]> (to_message (mkBuffer (Some (CText "hey")) 3)))
    (in_state CONNECTED)
  = (with_sent (MessageEvent (TextMessage "hey")) (in_state CONNECTED), Ok tt).
Proof.
  apply (echo_received (E := example_env) (mkBuffer (Some (CText "hey")) 3) (in_state CONNECTED)).
  reflexivity.
Defined.

(** ** The rejection path, part by part *)

Lemma rejection_as_parts `{E : Env} (message : dict) (self : WebsocketMixin) :
  _asgi_send_rejection message self = rejection_parts message self.
Proof.
  unfold rejection_parts, rejection_head, rejection_body, rejection_end, more_body,
    disconnect_message.
  run_rejection.
  destruct (response self) as [d|] eqn:Hr; [|reflexivity]. simpl.
  destruct (d !! "status") as [status|] eqn:Hs; [|reflexivity].
  destruct (suppress_body "GET" status) as [b|e]; [|reflexivity].
  destruct (state_eqb (state self) HANDSHAKE) eqn:Hst.
  - rewrite Hr. simpl. destruct (d !! "headers") as [raw|]; [|reflexivity].
    destruct (py_iter raw) as [items|e]; [|reflexivity].
    destruct (header_pairs items) as [hs|e]; [|reflexivity].
    rewrite Hr. simpl. rewrite Hs. destruct (py_int status) as [code|e]; [|reflexivity].
    simpl. destruct b; simpl.
    + now destruct (truthy (dict_get message "more_body" (VBool false))).
    + destruct (py_bytes (dict_get message "body" (VBytes []))); [|reflexivity].
      simpl. now destruct (truthy (dict_get message "more_body" (VBool false))).
  - destruct b; simpl.
    + now destruct (truthy (dict_get message "more_body" (VBool false))).
    + destruct (py_bytes (dict_get message "body" (VBytes []))); [|reflexivity].
      simpl. now destruct (truthy (dict_get message "more_body" (VBool false))).
Qed.

Section RejectionFacts.
Context `{E : Env}.

Lemma rejection_head_raise (self head : WebsocketMixin) (e : exn) :
  rejection_head self = (head, Raise e) -> head = self.
Proof.
  unfold rejection_head. split_matches; intros Hrun; now simplify_eq.
Qed.

Lemma rejection_head_ok (self head : WebsocketMixin) (b : bool) :
  rejection_head self = (head, Ok b) ->
  exists d status,
    response self = Some d
    /\ d !! "status" = Some status
    /\ suppress_body "GET" status = Ok b
    /\ (state self = HANDSHAKE
        /\ (exists code hs,
              head = with_state RESPONSE
                       (with_sent (RejectConnection code (hs ++ response_headers) (negb b)) self))
        \/ state self <> HANDSHAKE /\ head = self).
Proof.
  unfold rejection_head.
  destruct (response self) as [d|] eqn:Hr; [|discriminate].
  destruct (d !! "status") as [status|] eqn:Hs; [|discriminate].
  destruct (suppress_body "GET" status) as [b'|] eqn:Hb; [|discriminate].
  destruct (state_eqb (state self) HANDSHAKE) eqn:Hst.
  - apply state_eqb_eq in Hst.
    split_matches; intros Hrun; simplify_eq.
    exists d, status. split; [reflexivity|]. split; [assumption|]. split; [assumption|].
    left. eauto.
  - intros Hrun. simplify_eq. exists d, status.
    split; [reflexivity|]. split; [assumption|]. split; [assumption|].
    right. split; [|reflexivity]. intros Heq. rewrite Heq in Hst. discriminate Hst.
Qed.

Lemma rejection_body_cases (message : dict) (b : bool) (self mid : WebsocketMixin)
    (r : result unit) :
  rejection_body message b self = (mid, r) ->
  (mid = self /\ (r = Ok tt /\ b = true \/ exists e, r = Raise e /\ b = false))
  \/ (exists data,
        b = false /\ r = Ok tt
        /\ mid = with_sent (RejectData data (negb (more_body message))) self).
Proof.
  unfold rejection_body. destruct b.
  - intros Hrun. simplify_eq. left. split; [reflexivity | now left].
  - destruct (py_bytes _) as [data|e]; intros Hrun; simplify_eq.
    + right. eauto.
    + left. split; [reflexivity | right; eauto].
Qed.

Lemma send_frame_raise (message : dict) (self self' : WebsocketMixin) (e : exn) :
  send_frame message self = (self', Raise e) -> self' = self.
Proof. unfold send_frame. split_matches; intros Hrun; now simplify_eq. Qed.

Lemma close_with_code_raise (message : dict) (self self' : WebsocketMixin) (e : exn) :
  close_with_code message self = (self', Raise e) -> self' = self.
Proof. unfold close_with_code. split_matches; intros Hrun; now simplify_eq. Qed.

End RejectionFacts.

(** ** Missing keys *)

(** X5.  A message without a [type] raises [KeyError] in every state.  A
    close instruction needs no [code] in [HANDSHAKE], where it is answered
    with the 403 rejection whatever it carries; in every other state a
    missing [code] raises [KeyError] and a [code] that [int] refuses raises
    that error, and then nothing is sent and the state is kept. *)
Theorem close_and_missing_keys `{E : Env} (message : dict) (self : WebsocketMixin) :
  (message !! "type" = None ->
   asgi_send message self = (self, Raise (KeyError "type")))
  /\ (message !! "type" = Some (VStr "websocket.close") ->
      (state self = HANDSHAKE ->
       asgi_send message self = (with_state HTTPCLOSED (refused 403 self), Ok tt))
      /\ (state self <> HANDSHAKE ->
          message !! "code" = None ->
          asgi_send message self = (self, Raise (KeyError "code")))
      /\ (state self <> HANDSHAKE ->
          forall (raw : pyval) (e : exn),
            message !! "code" = Some raw ->
            py_int raw = Raise e ->
            asgi_send message self = (self, Raise e))).
Proof.
  split; [apply asgi_send_no_type|].
  intros Hty. split; [|split].
  - intros Hst. now apply asgi_send_close_handshake.
  - intros Hst Hcode. rewrite asgi_send_close by assumption. now rewrite Hcode.
  - intros Hst raw e Hcode Hint. rewrite asgi_send_close by assumption.
    now rewrite Hcode, Hint.
Qed.

Lemma close_and_missing_keys_witness :
  asgi_send (E := example_env) (msg "websocket.close" []) (in_state CONNECTED)
  = (in_state CONNECTED, Raise (KeyError "code")).
Proof.
  destruct (close_and_missing_keys (E := example_env) (msg "websocket.close" [])
              (in_state CONNECTED)) as (_ & Hclose).
  destruct (Hclose eq_refl) as (_ & Hmissing & _).
  apply Hmissing; [discriminate | reflexivity].
Defined.

(** ** What an exception leaves behind *)

(** X6.  When [asgi_send] raises, the object is as it was before the
    call, with one exception: a body instruction in [HANDSHAKE] whose body
    cannot be converted raises after the rejection (announcing a body) was
    sent and the state was set to [RESPONSE]. *)
Theorem asgi_send_raise_effects `{E : Env}
    (message : dict) (self self' : WebsocketMixin) (e : exn) :
  asgi_send message self = (self', Raise e) ->
  self' = self
  \/ (state self = HANDSHAKE
      /\ message !! "type" = Some (VStr "websocket.http.response.body")
      /\ py_bytes (dict_get message "body" (VBytes [])) = Raise e
      /\ exists code hs,
           self' = with_state RESPONSE (with_sent (RejectConnection code hs true) self)).
Proof.
  rewrite asgi_send_as_table. unfold asgi_send_table.
  destruct (message !! "type") as [ty|] eqn:Hty; [|intros Hrun; left; now simplify_eq].
  pose proof (classify_cases ty) as Hk.
  assert (Hrej : ty = VStr "websocket.http.response.body" ->
                 _asgi_send_rejection message self = (self', Raise e) ->
                 self' = self
                 \/ (state self = HANDSHAKE
                     /\ Some ty = Some (VStr "websocket.http.response.body")
                     /\ py_bytes (dict_get message "body" (VBytes [])) = Raise e
                     /\ exists code hs,
                          self' = with_state RESPONSE
                                    (with_sent (RejectConnection code hs true) self))).
  { intros -> Hrun. rewrite rejection_as_parts in Hrun. unfold rejection_parts in Hrun.
    destruct (rejection_head self) as [head [b|e0]] eqn:Hhead.
    - destruct (rejection_body message b head) as [mid [[]|e1]] eqn:Hbody; [discriminate|].
      simplify_eq.
      assert (Hbytes : b = false /\ self' = head
                       /\ py_bytes (dict_get message "body" (VBytes [])) = Raise e).
      { unfold rejection_body in Hbody. destruct b; [discriminate|].
        destruct (py_bytes _); simplify_eq. auto. }
      destruct Hbytes as (-> & -> & Hpb).
      destruct (rejection_head_ok self head false Hhead)
        as (d & status & _ & _ & _ & [(Hst & code & hs & ->) | (_ & ->)]).
      + right. repeat split; eauto.
      + now left.
    - simplify_eq. left. now apply (rejection_head_raise self self' e). }
  destruct (classify ty), (state self); intros Hrun; try discriminate Hrun;
    try (left; now simplify_eq);
    try (now apply Hrej);
    try (left; now apply (send_frame_raise message self self' e));
    try (left; now apply (close_with_code_raise message self self' e)).
Qed.

Lemma asgi_send_raise_effects_witness :
  with_state RESPONSE
    (with_sent (RejectConnection 404 server_headers true)
       (with_response (Some (msg "websocket.http.response.start"
                               [("status", VInt 404); ("headers", VList [])])) fresh))
  = with_response (Some (msg "websocket.http.response.start"
                           [("status", VInt 404); ("headers", VList [])])) fresh
  \/ (state (with_response (Some (msg "websocket.http.response.start"
                                    [("status", VInt 404); ("headers", VList [])])) fresh)
      = HANDSHAKE
      /\ msg "websocket.http.response.body" [("body", VStr "x")] !! "type"
         = Some (VStr "websocket.http.response.body")
      /\ py_bytes (dict_get (msg "websocket.http.response.body" [("body", VStr "x")])
                     "body" (VBytes [])) = Raise TypeError
      /\ exists code hs,
           with_state RESPONSE
             (with_sent (RejectConnection 404 server_headers true)
                (with_response (Some (msg "websocket.http.response.start"
                                        [("status", VInt 404); ("headers", VList [])])) fresh))
           = with_state RESPONSE
               (with_sent (RejectConnection code hs true)
                  (with_response (Some (msg "websocket.http.response.start"
                                          [("status", VInt 404); ("headers", VList [])]))
                     fresh))).
Proof.
  apply (asgi_send_raise_effects (E := example_env)
           (msg "websocket.http.response.body" [("body", VStr "x")])).
  vm_compute. reflexivity.
Defined.

(** ** Body chunks *)

(** X7.  A body instruction in [RESPONSE] never sends a second rejection
    head: it sends at most one body chunk, whose final flag is the negation
    of [more_body]; when it returns, the state stays [RESPONSE] for
    [more_body] true and otherwise becomes [HTTPCLOSED] with one disconnect
    message queued for the application; when it raises, nothing changed. *)
Theorem body_in_response `{E : Env}
    (message : dict) (self self' : WebsocketMixin) (r : result unit) :
  message !! "type" = Some (VStr "websocket.http.response.body") ->
  state self = RESPONSE ->
  asgi_send message self = (self', r) ->
  (sent self' = sent self
   \/ exists data, sent self' = sent self ++ [RejectData data (negb (more_body message))])
  /\ (r = Ok tt -> more_body message = true ->
      state self' = RESPONSE /\ app_queue self' = app_queue self)
  /\ (r = Ok tt -> more_body message = false ->
      state self' = HTTPCLOSED /\ app_queue self' = app_queue self ++ [disconnect_message])
  /\ (forall e, r = Raise e -> self' = self).
Proof.
  intros Hty Hst. rewrite asgi_send_body by auto.
  rewrite rejection_as_parts. unfold rejection_parts.
  destruct (rejection_head self) as [head [b|e0]] eqn:Hhead.
  - destruct (rejection_head_ok self head b Hhead)
      as (d & status & _ & _ & _ & [(Hh & _) | (_ & ->)]); [congruence|].
    destruct (rejection_body message b self) as [mid r0] eqn:Hbody.
    destruct (rejection_body_cases message b self mid r0 Hbody)
      as [(-> & [(-> & _) | (e & -> & _)]) | (data & _ & -> & ->)];
      intros Hrun; simplify_eq; unfold rejection_end;
      repeat split; intros; simplify_eq;
      try (destruct (more_body message) eqn:Hmore; simplify_eq; simpl; rewrite ?Hst);
      eauto.
  - intros Hrun. simplify_eq. rewrite (rejection_head_raise self self' e0 Hhead).
    repeat split; intros; simplify_eq; auto.
Qed.

Lemma body_in_response_witness :
  sent (with_sent (RejectData [x68; x69]%byte false) (in_state RESPONSE))
  = sent (in_state RESPONSE)
  \/ exists data,
       sent (with_sent (RejectData [x68; x69]%byte false) (in_state RESPONSE))
       = sent (in_state RESPONSE)
           ++ [RejectData data
                 (negb (more_body (msg "websocket.http.response.body"
                                     [("body", VBytes [x68; x69]%byte);
                                      ("more_body", VBool true)])))].
Proof.
  pose (start := msg "websocket.http.response.start" [("status", VInt 404)]).
  pose (self := with_response (Some start) (in_state RESPONSE)).
  pose (message := msg "websocket.http.response.body"
                     [("body", VBytes [x68; x69]%byte); ("more_body", VBool true)]).
  destruct (body_in_response (E := example_env) message self
              (with_sent (RejectData [x68; x69]%byte false) self) (Ok tt))
    as (Hsent & _); [reflexivity | reflexivity | vm_compute; reflexivity |].
  exact Hsent.
Defined.

(** X8.  When [suppress_body] holds for the stored status, the body of a
    body instruction is dropped without being looked at: in [RESPONSE]
    nothing at all is sent, whatever the [body] field holds, and the
    instruction only ends the response (or not, for [more_body] true). *)
Theorem suppressed_body_dropped `{E : Env}
    (message d : dict) (status : pyval) (self : WebsocketMixin) :
  message !! "type" = Some (VStr "websocket.http.response.body") ->
  state self = RESPONSE ->
  response self = Some d ->
  d !! "status" = Some status ->
  suppress_body "GET" status = Ok true ->
  asgi_send message self =
    (if more_body message then self
     else with_state HTTPCLOSED (with_put disconnect_message self), Ok tt).
Proof.
  intros Hty Hst Hr Hs Hb. rewrite asgi_send_body by auto.
  rewrite rejection_as_parts. unfold rejection_parts, rejection_head.
  rewrite Hr, Hs, Hb, Hst. reflexivity.
Qed.

Lemma suppressed_body_dropped_witness :
  asgi_send (E := example_env)
    (msg "websocket.http.response.body" [("body", VStr "not bytes")])
    (with_response (Some (msg "websocket.http.response.start" [("status", VInt 204)]))
       (in_state RESPONSE))
  = (with_state HTTPCLOSED
       (with_put disconnect_message
          (with_response (Some (msg "websocket.http.response.start" [("status", VInt 204)]))
             (in_state RESPONSE))), Ok tt).
Proof.
  apply (suppressed_body_dropped (E := example_env)
           (msg "websocket.http.response.body" [("body", VStr "not bytes")])
           (msg "websocket.http.response.start" [("status", VInt 204)]) (VInt 204));
    reflexivity.
Defined.

(** X9.  A response streamed in two chunks: after a start instruction
    with a status that has a body and well-formed headers, a body
    instruction with [more_body] true and a final one send the rejection
    head (the application's headers first, then the server's), then the two
    chunks, the second marked final; the state ends [HTTPCLOSED], one
    disconnect message is queued and the access log has the one record of
    the start instruction. *)
Theorem streamed_response `{E : Env}
    (start chunk last : dict) (self : WebsocketMixin)
    (status raw : pyval) (items : list pyval) (hs : list (list byte * list byte))
    (code : Z) (d1 d2 : list byte) :
  state self = HANDSHAKE ->
  start !! "type" = Some (VStr "websocket.http.response.start") ->
  start !! "status" = Some status ->
  start !! "headers" = Some raw ->
  suppress_body "GET" status = Ok false ->
  py_iter raw = Ok items ->
  header_pairs items = Ok hs ->
  py_int status = Ok code ->
  chunk !! "type" = Some (VStr "websocket.http.response.body") ->
  more_body chunk = true ->
  py_bytes (dict_get chunk "body" (VBytes [])) = Ok d1 ->
  last !! "type" = Some (VStr "websocket.http.response.body") ->
  more_body last = false ->
  py_bytes (dict_get last "body" (VBytes [])) = Ok d2 ->
  exists final,
    run_app (AppSend start (fun r1 =>
             AppSend chunk (fun r2 =>
             AppSend last (fun r3 =>
             match r1, r2, r3 with
             | Ok _, Ok _, Ok _ => AppReturn
             | _, _, _ => AppRaise
             end)))) self = (final, Returned)
    /\ sent final
       = sent self ++ [RejectConnection code (hs ++ response_headers) true;
                       RejectData d1 false; RejectData d2 true]
    /\ state final = HTTPCLOSED
    /\ app_queue final = app_queue self ++ [disconnect_message]
    /\ access_log final = access_log self ++ [(scope self, start)].
Proof.
  intros Hst Hty Hs Hh Hb Hit Hhs Hint Hc Hcm Hcd Hl Hlm Hld.
  pose (s1 := with_access start (with_response (Some start) self)).
  pose (s2 := with_sent (RejectData d1 false)
                (with_state RESPONSE
                   (with_sent (RejectConnection code (hs ++ response_headers) true) s1))).
  pose (s3 := with_state HTTPCLOSED (with_put disconnect_message
                (with_sent (RejectData d2 true) s2))).
  assert (H1 : asgi_send start self = (s1, Ok tt)) by now apply asgi_send_start.
  assert (H2 : asgi_send chunk s1 = (s2, Ok tt)).
  { rewrite asgi_send_body; [| exact Hc | now left].
    rewrite rejection_as_parts. unfold rejection_parts, rejection_head.
    change (response s1) with (Some start). change (state s1) with (state self).
    cbn beta iota. rewrite Hs, Hb, Hst. cbn beta iota delta [state_eqb].
    rewrite Hh, Hit, Hhs, Hint.
    unfold rejection_body, rejection_end. cbn beta iota delta [negb].
    now rewrite Hcd, Hcm. }
  assert (H3 : asgi_send last s2 = (s3, Ok tt)).
  { rewrite asgi_send_body; [| exact Hl | now right].
    rewrite rejection_as_parts. unfold rejection_parts, rejection_head.
    change (response s2) with (Some start). change (state s2) with RESPONSE.
    cbn beta iota. rewrite Hs, Hb. cbn beta iota delta [state_eqb].
    unfold rejection_body, rejection_end. cbn beta iota delta [negb].
    now rewrite Hld, Hlm. }
  exists s3. split.
  - simpl. rewrite H1, H2, H3. reflexivity.
  - simpl. rewrite <- !List.app_assoc. repeat split.
Qed.

Lemma streamed_response_witness :
  exists final,
    run_app (E := example_env)
      (AppSend (msg "websocket.http.response.start"
                  [("status", VInt 404); ("headers", VList [])]) (fun r1 =>
       AppSend (msg "websocket.http.response.body"
                  [("body", VBytes [x68]%byte); ("more_body", VBool true)]) (fun r2 =>
       AppSend (msg "websocket.http.response.body" [("body", VBytes [x69]%byte)]) (fun r3 =>
       match r1, r2, r3 with
       | Ok _, Ok _, Ok _ => AppReturn
       | _, _, _ => AppRaise
       end)))) fresh = (final, Returned)
    /\ sent final
       = sent fresh ++ [RejectConnection 404 ([] ++ server_headers) true;
                        RejectData [x68]%byte false; RejectData [x69]%byte true]
    /\ state final = HTTPCLOSED.
Proof.
  destruct (streamed_response (E := example_env)
              (msg "websocket.http.response.start"
                 [("status", VInt 404); ("headers", VList [])])
              (msg "websocket.http.response.body"
                 [("body", VBytes [x68]%byte); ("more_body", VBool true)])
              (msg "websocket.http.response.body" [("body", VBytes [x69]%byte)])
              fresh (VInt 404) (VList []) [] [] 404 [x68]%byte [x69]%byte)
    as (final & Hrun & Hsent & Hstate & _); try reflexivity.
  exists final. auto.
Defined.

(** ** The headers of a response *)

Lemma lstrip_head (b : list byte) :
  match lstrip b with [] => True | x :: _ => is_space x = false end.
Proof.
  induction b as [|x rest IH]; simpl; [exact I|].
  destruct (is_space x) eqn:Hx; [exact IH | exact Hx].
Qed.

Lemma lstrip_decompose (b : list byte) :
  exists pre, b = pre ++ lstrip b /\ forallb is_space pre = true.
Proof.
  induction b as [|x rest IH]; simpl; [now exists []|].
  destruct (is_space x) eqn:Hx.
  - destruct IH as (pre & Hb & Hpre). exists (x :: pre). simpl.
    rewrite Hx, Hpre. split; [now rewrite <- Hb | reflexivity].
  - now exists [].
Qed.

Lemma lstrip_keeps_last (p : list byte) (y : byte) :
  is_space y = false -> exists q, lstrip (p ++ [y]) = q ++ [y].
Proof.
  intros Hy. induction p as [|x p IH]; simpl.
  - rewrite Hy. now exists [].
  - destruct (is_space x); [exact IH | now exists (x :: p)].
Qed.

Lemma forallb_rev {A : Type} (f : A -> bool) (l : list A) :
  forallb f l = true -> forallb f (rev l) = true.
Proof.
  rewrite !forallb_forall. intros Hall x Hin. apply Hall. now apply in_rev.
Qed.

Lemma strip_trimmed (b : list byte) : trimmed (strip b) = true.
Proof.
  unfold trimmed, strip. rewrite rev_involutive.
  pose proof (lstrip_head b) as Hhead.
  destruct (lstrip b) as [|y l] eqn:Hl; [reflexivity|].
  simpl rev. destruct (lstrip_keeps_last (rev l) y Hhead) as [q Hq].
  pose proof (lstrip_head (rev l ++ [y])) as Hlast.
  rewrite Hq in *. rewrite rev_app_distr. simpl.
  rewrite Hhead. simpl.
  destruct (q ++ [y]) as [|z t]; [reflexivity|]. now rewrite Hlast.
Qed.

Lemma strip_decompose (b : list byte) :
  exists pre post,
    b = pre ++ strip b ++ post
    /\ forallb is_space pre = true /\ forallb is_space post = true.
Proof.
  destruct (lstrip_decompose b) as (pre & Hb & Hpre).
  destruct (lstrip_decompose (rev (lstrip b))) as (post & Hr & Hpost).
  exists pre, (rev post). split; [|split; [exact Hpre | now apply forallb_rev]].
  unfold strip. rewrite <- rev_app_distr, <- Hr, rev_involutive. exact Hb.
Qed.

(** X10.  The headers taken from the application's response: each item
    of the list gives one pair, in order, made of the bytes of its two
    parts with the whitespace at both ends removed and nothing else
    changed. *)
Theorem response_headers_trimmed (items : list pyval) (hs : list (list byte * list byte)) :
  header_pairs items = Ok hs ->
  Forall2 header_of items hs
  /\ Forall (fun p => trimmed (fst p) = true /\ trimmed (snd p) = true) hs
  /\ Forall2 (fun item p =>
                forall key val kb vb,
                  unpack2 item = Ok (key, val) ->
                  py_bytes key = Ok kb ->
                  py_bytes val = Ok vb ->
                  exists pre post pre' post',
                    kb = pre ++ fst p ++ post /\ vb = pre' ++ snd p ++ post'
                    /\ forallb is_space (pre ++ post ++ pre' ++ post') = true)
       items hs.
Proof.
  revert hs. induction items as [|item rest IH]; intros hs; simpl.
  - intros Hrun. simplify_eq. repeat split; constructor.
  - destruct (header_pair item) as [p|e] eqn:Hp; [|discriminate].
    destruct (header_pairs rest) as [ps|e] eqn:Hps; [|discriminate].
    intros Hrun. simplify_eq. destruct (IH ps eq_refl) as (Hof & Htr & Hdec).
    unfold header_pair in Hp.
    destruct (unpack2 item) as [[key val]|] eqn:Hu; [|discriminate].
    destruct (py_bytes key) as [kb|] eqn:Hk; [|discriminate].
    destruct (py_bytes val) as [vb|] eqn:Hv; [|discriminate].
    simplify_eq. repeat split.
    + constructor; [|exact Hof]. exists key, val, kb, vb. auto.
    + constructor; [|exact Htr]. simpl. split; apply strip_trimmed.
    + constructor; [|exact Hdec].
      intros key' val' kb' vb' Hu' Hk' Hv'.
      assert (key' = key /\ val' = val) as [-> ->] by (split; congruence).
      assert (kb' = kb /\ vb' = vb) as [-> ->] by (split; congruence).
      simpl.
      destruct (strip_decompose kb) as (pre & post & Hkb & Hpre & Hpost).
      destruct (strip_decompose vb) as (pre' & post' & Hvb & Hpre' & Hpost').
      exists pre, post, pre', post'. split; [exact Hkb|]. split; [exact Hvb|].
      rewrite !forallb_app, Hpre, Hpost, Hpre', Hpost'. reflexivity.
Qed.

Lemma response_headers_trimmed_witness :
  Forall (fun p => trimmed (fst p) = true /\ trimmed (snd p) = true)
    [(ascii_bytes "a", ascii_bytes "1 2")].
Proof.
  destruct (response_headers_trimmed
              [VList [VBytes (ascii_bytes " a"); VBytes (ascii_bytes " 1 2 ")]]
              [(ascii_bytes "a", ascii_bytes "1 2")] eq_refl) as (_ & Htr & _).
  exact Htr.
Defined.

(** ** The events of a connection, in order *)

Section Shape.
Context `{E : Env}.

Lemma conn_inv_handshake (self : WebsocketMixin) :
  conn_inv self -> state self = HANDSHAKE -> sent self = [].
Proof.
  unfold conn_inv. destruct (sent self) as [|[] rest]; intros Hinv Hst;
    try reflexivity; try contradiction;
    destruct Hinv as (_ & Hs); intuition congruence.
Qed.

Lemma conn_inv_fresh (self : WebsocketMixin) :
  state self = HANDSHAKE -> sent self = [] -> conn_inv self.
Proof. unfold conn_inv. now intros Hst ->. Qed.

(** Changes that touch neither the events, the state nor the response. *)
Lemma conn_inv_same (self self' : WebsocketMixin) :
  sent self' = sent self -> state self' = state self -> response self' = response self ->
  conn_inv self -> conn_inv self'.
Proof.
  unfold conn_inv, announced. intros -> -> ->. exact id.
Qed.

Lemma conn_inv_close (self : WebsocketMixin) (code : Z) :
  conn_inv self -> state self <> HANDSHAKE ->
  conn_inv (with_state CLOSED (with_sent (CloseConnection code) self)).
Proof.
  unfold conn_inv. simpl. destruct (sent self) as [|[] rest]; simpl;
    intros Hinv Hst; try contradiction.
  - destruct Hinv as (Hall & _). rewrite forallb_app, Hall. auto.
  - destruct Hinv as (Hall & _). rewrite forallb_app, Hall. simpl. auto.
Qed.

Lemma conn_inv_frame (self : WebsocketMixin) (m : Message) :
  conn_inv self -> state self = CONNECTED ->
  conn_inv (with_sent (MessageEvent m) self).
Proof.
  unfold conn_inv. simpl. destruct (sent self) as [|[] rest]; simpl;
    intros Hinv Hst; try contradiction; try congruence.
  - destruct Hinv as (Hall & Hs). rewrite forallb_app, Hall. auto.
  - destruct Hinv as (_ & [(Hs & _) | [Hs | Hs]]); congruence.
Qed.

(** The rejection head on a connection that has sent nothing. *)
Lemma conn_inv_head (self : WebsocketMixin) (d : dict) (status : pyval) (b : bool)
    (code : Z) (hs : list (list byte * list byte)) :
  sent self = [] ->
  response self = Some d -> d !! "status" = Some status ->
  suppress_body "GET" status = Ok b ->
  conn_inv (with_state RESPONSE (with_sent (RejectConnection code hs (negb b)) self)).
Proof.
  intros Hs Hr Hst Hb. unfold conn_inv, announced. simpl. rewrite Hs. simpl.
  split; [reflexivity|]. left. split; [reflexivity|]. exists d, status, b. auto.
Qed.

(** In [RESPONSE] the flag that was sent is the one the stored status
    gives. *)
Lemma conn_inv_response (self : WebsocketMixin) (d : dict) (status : pyval) (b : bool) :
  conn_inv self -> state self = RESPONSE ->
  response self = Some d -> d !! "status" = Some status ->
  suppress_body "GET" status = Ok b ->
  exists code hs rest,
    sent self = RejectConnection code hs (negb b) :: rest
    /\ forallb (is_body_or_close (negb b)) rest = true.
Proof.
  unfold conn_inv, announced. destruct (sent self) as [|[] rest];
    intros Hinv Hst Hr Hs Hb; try contradiction; try congruence.
  - destruct Hinv as (_ & [Hc | Hc]); congruence.
  - destruct Hinv as (Hall & [(_ & d' & status' & b' & Hr' & Hs' & Hb' & ->) | [Hc | Hc]]);
      try congruence.
    assert (b' = b) as -> by congruence. eauto.
Qed.

Lemma conn_inv_body (self : WebsocketMixin) (data : list byte) (fin : bool)
    (code : Z) (hs : list (list byte * list byte)) (rest : list Event) :
  conn_inv self -> state self = RESPONSE ->
  sent self = RejectConnection code hs true :: rest ->
  conn_inv (with_sent (RejectData data fin) self).
Proof.
  unfold conn_inv, announced. simpl. intros Hinv Hst Hs. rewrite Hs in *. simpl.
  destruct Hinv as (Hall & Hstate). rewrite forallb_app, Hall. auto.
Qed.

Lemma conn_inv_end (self : WebsocketMixin) :
  conn_inv self -> state self = RESPONSE ->
  conn_inv (with_state HTTPCLOSED (with_put disconnect_message self)).
Proof.
  unfold conn_inv. simpl. destruct (sent self) as [|[] rest];
    intros Hinv Hst; try contradiction; try congruence.
  - destruct Hinv as (_ & [Hc | Hc]); congruence.
  - destruct Hinv as (Hall & _). auto.
Qed.

Lemma conn_inv_rejection (message : dict) (self self' : WebsocketMixin) (r : result unit) :
  conn_inv self ->
  state self = HANDSHAKE \/ state self = RESPONSE ->
  _asgi_send_rejection message self = (self', r) ->
  conn_inv self'.
Proof.
  intros Hinv Hst. rewrite rejection_as_parts. unfold rejection_parts.
  destruct (rejection_head self) as [head [b|e0]] eqn:Hhead.
  2:{ intros Hrun. simplify_eq. now rewrite (rejection_head_raise self self' e0 Hhead). }
  destruct (rejection_head_ok self head b Hhead)
    as (d & status & Hr & Hs & Hb & Hcase).
  assert (Hh : conn_inv head /\ state head = RESPONSE
               /\ exists code hs rest, sent head = RejectConnection code hs (negb b) :: rest).
  { destruct Hcase as [(Hs0 & code & hs & ->) | (Hne & ->)].
    - split; [|split; [reflexivity|]].
      + eapply conn_inv_head; eauto. now apply conn_inv_handshake.
      + simpl. rewrite (conn_inv_handshake self Hinv Hs0). simpl. eauto.
    - destruct Hst as [Hst | Hst]; [congruence|].
      split; [exact Hinv | split; [exact Hst|]].
      destruct (conn_inv_response self d status b Hinv Hst Hr Hs Hb)
        as (code & hs & rest & Hsent & _). eauto. }
  destruct Hh as (Hhinv & Hhst & code & hs & rest & Hsent).
  destruct (rejection_body message b head) as [mid r0] eqn:Hbody.
  assert (Hm : conn_inv mid /\ state mid = RESPONSE).
  { destruct (rejection_body_cases message b head mid r0 Hbody)
      as [(-> & _) | (data & -> & _ & ->)]; [now split|].
    split; [|exact Hhst]. eapply conn_inv_body; eauto. }
  destruct Hm as (Hminv & Hmst).
  destruct r0 as [[]|e1]; intros Hrun; simplify_eq; [|exact Hminv].
  unfold rejection_end. destruct (more_body message); [exact Hminv|].
  now apply conn_inv_end.
Qed.

Lemma conn_inv_step (message : dict) (self self' : WebsocketMixin) (r : result unit) :
  conn_inv self -> asgi_send message self = (self', r) -> conn_inv self'.
Proof.
  intros Hinv. rewrite asgi_send_as_table. unfold asgi_send_table.
  destruct (message !! "type") as [ty|]; [|intros Hrun; now simplify_eq].
  destruct (classify ty), (state self) eqn:Hst; intros Hrun;
    try (simplify_eq; exact Hinv);
    try (eapply conn_inv_rejection; eauto; fail).
  - simplify_eq. unfold conn_inv, accepted. simpl.
    rewrite (conn_inv_handshake self Hinv Hst). simpl. auto.
  - simplify_eq. unfold conn_inv. simpl.
    rewrite (conn_inv_handshake self Hinv Hst). exact Hst.
  - unfold send_frame in Hrun. revert Hrun.
    split_matches; intros Hrun; simplify_eq; try exact Hinv; now apply conn_inv_frame.
  - simplify_eq. unfold conn_inv, refused. simpl.
    rewrite (conn_inv_handshake self Hinv Hst). simpl. auto.
  - unfold close_with_code in Hrun. revert Hrun.
    split_matches; intros Hrun; simplify_eq; try exact Hinv;
      apply conn_inv_close; [exact Hinv | congruence].
  - unfold close_with_code in Hrun. revert Hrun.
    split_matches; intros Hrun; simplify_eq; try exact Hinv;
      apply conn_inv_close; [exact Hinv | congruence].
  - unfold close_with_code in Hrun. revert Hrun.
    split_matches; intros Hrun; simplify_eq; try exact Hinv;
      apply conn_inv_close; [exact Hinv | congruence].
  - unfold close_with_code in Hrun. revert Hrun.
    split_matches; intros Hrun; simplify_eq; try exact Hinv;
      apply conn_inv_close; [exact Hinv | congruence].
Qed.

Lemma conn_inv_run (a : App) :
  keeps_response a ->
  forall self : WebsocketMixin, conn_inv self -> conn_inv (fst (run_app a self)).
Proof.
  induction 1 as [| | |x|message k Hk IH|f k Hk IH]; intros self Hinv; simpl;
    try exact Hinv.
  - destruct (asgi_send message self) as [self' r] eqn:Hrun.
    apply IH. eapply conn_inv_step; eauto.
  - apply IH. eapply conn_inv_same; eauto.
Qed.

Lemma conn_inv_outcome (o : outcome) (self : WebsocketMixin) :
  conn_inv self -> conn_inv (after_outcome o self).
Proof.
  intros Hinv. destruct o; simpl; try exact Hinv.
  assert (Hlog : conn_inv (with_error "Error in ASGI Framework" self))
    by (eapply conn_inv_same; eauto).
  destruct (state self) eqn:Hst; simpl; try exact Hlog.
  apply conn_inv_close; [exact Hlog | simpl; congruence].
Qed.

Lemma conn_inv_check (self : WebsocketMixin) :
  conn_inv self -> conn_inv (after_handshake_check self).
Proof.
  intros Hinv. unfold after_handshake_check.
  destruct (state self) eqn:Hst; simpl; try exact Hinv.
  unfold conn_inv, refused. simpl. rewrite (conn_inv_handshake self Hinv Hst). simpl. auto.
Qed.

Lemma conn_inv_after_app (o : outcome) (self : WebsocketMixin) :
  conn_inv self -> conn_inv (after_app o self).
Proof.
  intros Hinv. destruct o; cbv beta iota delta [after_app]; try exact Hinv;
    apply conn_inv_check; apply conn_inv_outcome; exact Hinv.
Qed.

(** For an application that leaves its start message alone, the events
    sent by the end of [handle_asgi_app] have the shape of [conn_inv]. *)
Lemma conn_inv_handle (app : Scope -> App) (self : WebsocketMixin) :
  (forall sc, keeps_response (app sc)) ->
  conn_inv self ->
  conn_inv (fst (handle_asgi_app app self)).
Proof.
  intros Hkeeps Hinv. rewrite handle_asgi_app_run. simpl fst.
  assert (Hput : conn_inv (with_put connect_message self))
    by (eapply conn_inv_same; eauto).
  pose proof (conn_inv_run (app (scope self)) (Hkeeps _) _ Hput) as Hrun.
  destruct (run_app (app (scope self)) (with_put connect_message self)) as [self1 o].
  simpl in *. now apply conn_inv_after_app.
Qed.

(** The weaker shape, which no change of the stored response breaks. *)

Lemma conn_shape_handshake (self : WebsocketMixin) :
  conn_shape self -> state self = HANDSHAKE -> sent self = [].
Proof.
  unfold conn_shape. destruct (sent self) as [|[] rest]; intros Hinv Hst;
    try reflexivity; try contradiction;
    destruct Hinv as (_ & Hs); intuition congruence.
Qed.

Lemma conn_shape_fresh (self : WebsocketMixin) :
  state self = HANDSHAKE -> sent self = [] -> conn_shape self.
Proof. unfold conn_shape. now intros Hst ->. Qed.

Lemma conn_shape_same (self self' : WebsocketMixin) :
  sent self' = sent self -> state self' = state self ->
  conn_shape self -> conn_shape self'.
Proof. unfold conn_shape. intros -> ->. exact id. Qed.

Lemma conn_shape_close (self : WebsocketMixin) (code : Z) :
  conn_shape self -> state self <> HANDSHAKE ->
  conn_shape (with_state CLOSED (with_sent (CloseConnection code) self)).
Proof.
  unfold conn_shape. simpl. destruct (sent self) as [|[] rest]; simpl;
    intros Hinv Hst; try contradiction.
  - destruct Hinv as (Hall & _). rewrite forallb_app, Hall. auto.
  - destruct Hinv as (Hall & _). rewrite forallb_app, Hall. simpl. auto.
Qed.

Lemma conn_shape_frame (self : WebsocketMixin) (m : Message) :
  conn_shape self -> state self = CONNECTED ->
  conn_shape (with_sent (MessageEvent m) self).
Proof.
  unfold conn_shape. simpl. destruct (sent self) as [|[] rest]; simpl;
    intros Hinv Hst; try contradiction; try congruence.
  - destruct Hinv as (Hall & Hs). rewrite forallb_app, Hall. auto.
  - destruct Hinv as (_ & [Hs | [Hs | Hs]]); congruence.
Qed.

Lemma conn_shape_body (self : WebsocketMixin) (data : list byte) (fin : bool) :
  conn_shape self -> state self = RESPONSE ->
  conn_shape (with_sent (RejectData data fin) self).
Proof.
  unfold conn_shape. simpl. destruct (sent self) as [|[] rest]; simpl;
    intros Hinv Hst; try contradiction; try congruence.
  - destruct Hinv as (_ & [Hc | Hc]); congruence.
  - destruct Hinv as (Hall & Hs). rewrite forallb_app, Hall. auto.
Qed.

Lemma conn_shape_end (self : WebsocketMixin) :
  conn_shape self -> state self = RESPONSE ->
  conn_shape (with_state HTTPCLOSED (with_put disconnect_message self)).
Proof.
  unfold conn_shape. simpl. destruct (sent self) as [|[] rest];
    intros Hinv Hst; try contradiction; try congruence.
  - destruct Hinv as (_ & [Hc | Hc]); congruence.
  - destruct Hinv as (Hall & _). auto.
Qed.

Lemma conn_shape_rejection (message : dict) (self self' : WebsocketMixin) (r : result unit) :
  conn_shape self ->
  state self = HANDSHAKE \/ state self = RESPONSE ->
  _asgi_send_rejection message self = (self', r) ->
  conn_shape self'.
Proof.
  intros Hinv Hst. rewrite rejection_as_parts. unfold rejection_parts.
  destruct (rejection_head self) as [head [b|e0]] eqn:Hhead.
  2:{ intros Hrun. simplify_eq. now rewrite (rejection_head_raise self self' e0 Hhead). }
  assert (Hh : conn_shape head /\ state head = RESPONSE).
  { destruct (rejection_head_ok self head b Hhead)
      as (d & status & _ & _ & _ & [(Hs0 & code & hs & ->) | (Hne & ->)]).
    - split; [|reflexivity]. unfold conn_shape. simpl.
      rewrite (conn_shape_handshake self Hinv Hs0). simpl. auto.
    - destruct Hst as [Hst | Hst]; [congruence | now split]. }
  destruct Hh as (Hhinv & Hhst).
  destruct (rejection_body message b head) as [mid r0] eqn:Hbody.
  assert (Hm : conn_shape mid /\ state mid = RESPONSE).
  { destruct (rejection_body_cases message b head mid r0 Hbody)
      as [(-> & _) | (data & _ & _ & ->)]; [now split|].
    split; [|exact Hhst]. now apply conn_shape_body. }
  destruct Hm as (Hminv & Hmst).
  destruct r0 as [[]|e1]; intros Hrun; simplify_eq; [|exact Hminv].
  unfold rejection_end. destruct (more_body message); [exact Hminv|].
  now apply conn_shape_end.
Qed.

Lemma conn_shape_step (message : dict) (self self' : WebsocketMixin) (r : result unit) :
  conn_shape self -> asgi_send message self = (self', r) -> conn_shape self'.
Proof.
  intros Hinv. rewrite asgi_send_as_table. unfold asgi_send_table.
  destruct (message !! "type") as [ty|]; [|intros Hrun; now simplify_eq].
  destruct (classify ty), (state self) eqn:Hst; intros Hrun;
    try (simplify_eq; exact Hinv);
    try (eapply conn_shape_rejection; eauto; fail).
  - simplify_eq. unfold conn_shape, accepted. simpl.
    rewrite (conn_shape_handshake self Hinv Hst). simpl. auto.
  - unfold send_frame in Hrun. revert Hrun.
    split_matches; intros Hrun; simplify_eq; try exact Hinv; now apply conn_shape_frame.
  - simplify_eq. unfold conn_shape, refused. simpl.
    rewrite (conn_shape_handshake self Hinv Hst). simpl. auto.
  - unfold close_with_code in Hrun. revert Hrun.
    split_matches; intros Hrun; simplify_eq; try exact Hinv;
      apply conn_shape_close; [exact Hinv | congruence].
  - unfold close_with_code in Hrun. revert Hrun.
    split_matches; intros Hrun; simplify_eq; try exact Hinv;
      apply conn_shape_close; [exact Hinv | congruence].
  - unfold close_with_code in Hrun. revert Hrun.
    split_matches; intros Hrun; simplify_eq; try exact Hinv;
      apply conn_shape_close; [exact Hinv | congruence].
  - unfold close_with_code in Hrun. revert Hrun.
    split_matches; intros Hrun; simplify_eq; try exact Hinv;
      apply conn_shape_close; [exact Hinv | congruence].
Qed.

Lemma conn_shape_run (a : App) :
  forall self : WebsocketMixin, conn_shape self -> conn_shape (fst (run_app a self)).
Proof.
  induction a as [| | |x|message k IH|f k IH|f k IH]; intros self Hinv; simpl;
    try exact Hinv.
  - destruct (asgi_send message self) as [self' r] eqn:Hrun.
    apply IH. eapply conn_shape_step; eauto.
  - apply IH. eapply conn_shape_same; eauto.
  - apply IH. eapply conn_shape_same; eauto.
Qed.

Lemma conn_shape_after_app (o : outcome) (self : WebsocketMixin) :
  conn_shape self -> conn_shape (after_app o self).
Proof.
  intros Hinv.
  assert (Hout : conn_shape (after_outcome o self)).
  { destruct o; simpl; try exact Hinv.
    assert (Hlog : conn_shape (with_error "Error in ASGI Framework" self))
      by (eapply conn_shape_same; eauto).
    destruct (state self) eqn:Hst; simpl; try exact Hlog.
    apply conn_shape_close; [exact Hlog | simpl; congruence]. }
  assert (Hcheck : conn_shape (after_handshake_check (after_outcome o self))).
  { unfold after_handshake_check.
    destruct (state (after_outcome o self)) eqn:Hst; simpl; try exact Hout.
    unfold conn_shape, refused. simpl.
    rewrite (conn_shape_handshake _ Hout Hst). simpl. auto. }
  destruct o; cbv beta iota delta [after_app]; assumption.
Qed.

(** The events sent by the end of [handle_asgi_app] have the shape of
    [conn_shape], whatever the application does. *)
Lemma conn_shape_handle (app : Scope -> App) (self : WebsocketMixin) :
  conn_shape self -> conn_shape (fst (handle_asgi_app app self)).
Proof.
  intros Hinv. rewrite handle_asgi_app_run. simpl fst.
  assert (Hput : conn_shape (with_put connect_message self))
    by (eapply conn_shape_same; eauto).
  pose proof (conn_shape_run (app (scope self)) _ Hput) as Hrun.
  destruct (run_app (app (scope self)) (with_put connect_message self)) as [self1 o].
  simpl in *. now apply conn_shape_after_app.
Qed.

Lemma conn_shape_answer (self : WebsocketMixin) :
  conn_shape self ->
  sent self = [] /\ state self = HANDSHAKE
  \/ state self <> HANDSHAKE
     /\ exists answer rest,
          sent self = answer :: rest
          /\ is_answer answer = true
          /\ forallb (fun ev => negb (is_answer ev)) rest = true.
Proof.
  unfold conn_shape. destruct (sent self) as [|[] rest]; intros Hinv;
    try contradiction; [now left | |].
  - destruct Hinv as (Hall & Hst). right. split; [intuition congruence|].
    eexists _, rest. repeat split.
    rewrite forallb_forall in *. intros ev Hin. specialize (Hall ev Hin). now destruct ev.
  - destruct Hinv as (Hall & Hst). right. split; [intuition congruence|].
    eexists _, rest. repeat split.
    rewrite forallb_forall in *. intros ev Hin. specialize (Hall ev Hin). now destruct ev.
Qed.

End Shape.

(** X11.  On a connection that starts in [HANDSHAKE] with nothing sent,
    the handshake is answered at most once, and first, whatever the
    application does: the events sent by the end of [handle_asgi_app] are
    either none, with the state still [HANDSHAKE], or one [AcceptConnection]
    or [RejectConnection] followed by events that are neither.  When
    [handle_asgi_app] returns, the handshake has been answered exactly once
    and the state is not [HANDSHAKE]; it is left unanswered only when the
    application raised an exception that is neither an [Exception] nor a
    cancellation, which is the only thing [handle_asgi_app] raises. *)
Theorem handshake_answered_once `{E : Env} (app : Scope -> App) (self : WebsocketMixin) :
  state self = HANDSHAKE ->
  sent self = [] ->
  (sent (fst (handle_asgi_app app self)) = []
   /\ state (fst (handle_asgi_app app self)) = HANDSHAKE
   /\ (exists x, snd (handle_asgi_app app self) = Raise (Fatal x))
   \/ state (fst (handle_asgi_app app self)) <> HANDSHAKE
      /\ exists answer rest,
           sent (fst (handle_asgi_app app self)) = answer :: rest
           /\ is_answer answer = true
           /\ forallb (fun ev => negb (is_answer ev)) rest = true)
  /\ (snd (handle_asgi_app app self) = Ok tt ->
      state (fst (handle_asgi_app app self)) <> HANDSHAKE
      /\ exists answer rest,
           sent (fst (handle_asgi_app app self)) = answer :: rest
           /\ is_answer answer = true
           /\ forallb (fun ev => negb (is_answer ev)) rest = true)
  /\ (forall e, snd (handle_asgi_app app self) = Raise e -> exists x, e = Fatal x).
Proof.
  intros Hst Hs.
  pose proof (conn_shape_handle app self (conn_shape_fresh self Hst Hs)) as Hshape.
  apply conn_shape_answer in Hshape.
  assert (Hret : snd (handle_asgi_app app self) = Ok tt ->
                 state (fst (handle_asgi_app app self)) <> HANDSHAKE).
  { rewrite handle_asgi_app_run. simpl fst. simpl snd.
    destruct (run_app (app (scope self)) (with_put connect_message self)) as [self1 o].
    simpl. intros Hok. now apply (after_app_frame o self1). }
  assert (Hraise : forall e, snd (handle_asgi_app app self) = Raise e -> exists x, e = Fatal x).
  { rewrite handle_asgi_app_run. simpl snd.
    destruct (snd (run_app (app (scope self)) (with_put connect_message self)));
      simpl; intros e He; simplify_eq. eauto. }
  split; [|split; [|exact Hraise]].
  - destruct Hshape as [(Hnil & Hh) | Hansw]; [left | now right].
    split; [exact Hnil | split; [exact Hh|]].
    destruct (snd (handle_asgi_app app self)) as [[]|e] eqn:Hres.
    + now destruct (Hret eq_refl).
    + destruct (Hraise e eq_refl) as [x ->]. eauto.
  - intros Hok. specialize (Hret Hok).
    destruct Hshape as [(_ & Hh) | (_ & Hansw)]; [contradiction | now split].
Qed.

Lemma handshake_answered_once_witness :
  state (fst (handle_asgi_app (E := example_env) (fun _ => AppRaise) fresh)) <> HANDSHAKE
  /\ exists answer rest,
       sent (fst (handle_asgi_app (E := example_env) (fun _ => AppRaise) fresh)) = answer :: rest
       /\ is_answer answer = true
       /\ forallb (fun ev => negb (is_answer ev)) rest = true.
Proof.
  destruct (handshake_answered_once (E := example_env) (fun _ => AppRaise) fresh)
    as (_ & Hreturned & _); [reflexivity | reflexivity |].
  apply Hreturned. reflexivity.
Defined.

(** X12.  Data frames go out only on an accepted connection: at any point
    of the application's run, and at the end of [handle_asgi_app], if a data
    frame is among the events sent then the first event sent is
    [AcceptConnection], and no rejection head or body chunk was sent. *)
Theorem frames_only_after_accept `{E : Env}
    (a : App) (app : Scope -> App) (self : WebsocketMixin) :
  state self = HANDSHAKE ->
  sent self = [] ->
  forall final : WebsocketMixin,
    final = fst (run_app a self) \/ final = fst (handle_asgi_app app self) ->
    forall m : Message,
      In (MessageEvent m) (sent final) ->
      exists ext rest,
        sent final = AcceptConnection ext :: rest
        /\ forallb is_frame_or_close rest = true.
Proof.
  intros Hst Hs final Hfinal m Hin.
  assert (Hinv : conn_shape final).
  { destruct Hfinal as [-> | ->].
    - apply conn_shape_run. now apply conn_shape_fresh.
    - apply conn_shape_handle. now apply conn_shape_fresh. }
  unfold conn_shape in Hinv.
  destruct (sent final) as [|[] rest]; try contradiction; simpl in Hin;
    try (destruct Hin as [Hin | Hin]; [discriminate Hin|]).
  - destruct Hinv as (Hall & _). eauto.
  - destruct Hinv as (Hall & _). rewrite forallb_forall in Hall.
    specialize (Hall _ Hin). discriminate Hall.
Qed.

Lemma frames_only_after_accept_witness :
  exists ext rest,
    sent (fst (run_app (E := example_env)
                 (AppSend (msg "websocket.accept" []) (fun _ =>
                  AppSend (msg "websocket.send" [("text", VStr "hi")]) (fun _ => AppReturn)))
                 fresh))
    = AcceptConnection ext :: rest
    /\ forallb is_frame_or_close rest = true.
Proof.
  apply (frames_only_after_accept (E := example_env)
           (AppSend (msg "websocket.accept" []) (fun _ =>
            AppSend (msg "websocket.send" [("text", VStr "hi")]) (fun _ => AppReturn)))
           (fun _ => AppReturn) fresh eq_refl eq_refl _ (or_introl eq_refl)
           (TextMessage "hi")).
  vm_compute. right. left. reflexivity.
Defined.

(** X13.  Provided the application does not change the dictionary it
    gave as a start instruction, a body chunk goes out only after a
    rejection head that announced a body: if a [RejectData] is among the
    events sent, the first event sent is a [RejectConnection] with
    [has_body] true, and no data frame was sent. *)
Theorem body_only_if_announced `{E : Env}
    (a : App) (app : Scope -> App) (self : WebsocketMixin) :
  state self = HANDSHAKE ->
  sent self = [] ->
  keeps_response a ->
  (forall sc, keeps_response (app sc)) ->
  forall final : WebsocketMixin,
    final = fst (run_app a self) \/ final = fst (handle_asgi_app app self) ->
    forall (data : list byte) (fin : bool),
      In (RejectData data fin) (sent final) ->
      exists code hs rest,
        sent final = RejectConnection code hs true :: rest
        /\ forallb (is_body_or_close true) rest = true.
Proof.
  intros Hst Hs Ha Happ final Hfinal data fin Hin.
  assert (Hinv : conn_inv final).
  { destruct Hfinal as [-> | ->].
    - apply conn_inv_run; [exact Ha | now apply conn_inv_fresh].
    - apply conn_inv_handle; [exact Happ | now apply conn_inv_fresh]. }
  unfold conn_inv in Hinv.
  destruct (sent final) as [|[] rest]; try contradiction; simpl in Hin;
    try (destruct Hin as [Hin | Hin]; [discriminate Hin|]).
  - destruct Hinv as (Hall & _). rewrite forallb_forall in Hall.
    specialize (Hall _ Hin). discriminate Hall.
  - destruct Hinv as (Hall & _). pose proof Hall as Hall'.
    rewrite forallb_forall in Hall'. specialize (Hall' _ Hin). simpl in Hall'.
    subst has_body. eauto.
Qed.

Lemma body_only_if_announced_witness :
  exists code hs rest,
    sent (fst (run_app (E := example_env)
                 (AppSend (msg "websocket.http.response.start"
                             [("status", VInt 404); ("headers", VList [])]) (fun _ =>
                  AppSend (msg "websocket.http.response.body" [("body", VBytes [x68]%byte)])
                    (fun _ => AppReturn)))
                 fresh))
    = RejectConnection code hs true :: rest
    /\ forallb (is_body_or_close true) rest = true.
Proof.
  apply (body_only_if_announced (E := example_env)
           (AppSend (msg "websocket.http.response.start"
                       [("status", VInt 404); ("headers", VList [])]) (fun _ =>
            AppSend (msg "websocket.http.response.body" [("body", VBytes [x68]%byte)])
              (fun _ => AppReturn)))
           (fun _ => AppReturn) fresh eq_refl eq_refl
           (keeps_send _ _ (fun _ => keeps_send _ _ (fun _ => keeps_return)))
           (fun _ => keeps_return) _ (or_introl eq_refl)
           [x68]%byte true).
  vm_compute. right. left. reflexivity.
Defined.

(** The precondition of X13 is needed: the stored response is the
    application's own dictionary and its status is read again at every body
    instruction, so a status changed between two chunks sends a body chunk
    after a head that announced none. *)
Example response_changed_between_chunks :
  sent (fst (run_app (E := example_env)
               (AppSend (msg "websocket.http.response.start"
                           [("status", VInt 204); ("headers", VList [])]) (fun _ =>
                AppSend (msg "websocket.http.response.body" [("more_body", VBool true)])
                  (fun _ =>
                AppSetResponse (fun d => <["status" := VInt 404]> d)
                  (AppSend (msg "websocket.http.response.body"
                              [("body", VBytes [x68]%byte)])
                     (fun _ => AppReturn)))))
               fresh))
  = [RejectConnection 204 server_headers false; RejectData [x68]%byte true].
Proof. vm_compute. reflexivity. Qed.

(** ** The messages queued for the application *)

Section Queue.
Context `{E : Env}.

Lemma asgi_send_queue (message : dict) (self self' : WebsocketMixin) (r : result unit) :
  asgi_send message self = (self', r) ->
  app_queue self' = app_queue self
  \/ (app_queue self' = app_queue self ++ [disconnect_message]
      /\ state self' = HTTPCLOSED
      /\ (state self = HANDSHAKE \/ state self = RESPONSE)).
Proof.
  rewrite asgi_send_as_table. unfold asgi_send_table.
  destruct (message !! "type") as [ty|]; [|intros Hrun; left; now simplify_eq].
  assert (Hrej : state self = HANDSHAKE \/ state self = RESPONSE ->
                 _asgi_send_rejection message self = (self', r) ->
                 app_queue self' = app_queue self
                 \/ (app_queue self' = app_queue self ++ [disconnect_message]
                     /\ state self' = HTTPCLOSED
                     /\ (state self = HANDSHAKE \/ state self = RESPONSE))).
  { intros Hst. rewrite rejection_as_parts. unfold rejection_parts.
    destruct (rejection_head self) as [head [b|e0]] eqn:Hhead.
    2:{ intros Hrun. simplify_eq. left.
        now rewrite (rejection_head_raise self self' e0 Hhead). }
    assert (Hq : app_queue head = app_queue self).
    { destruct (rejection_head_ok self head b Hhead)
        as (_ & _ & _ & _ & _ & [(_ & code & hs & ->) | (_ & ->)]); reflexivity. }
    destruct (rejection_body message b head) as [mid r0] eqn:Hbody.
    assert (Hq' : app_queue mid = app_queue self).
    { destruct (rejection_body_cases message b head mid r0 Hbody)
        as [(-> & _) | (data & _ & _ & ->)]; exact Hq. }
    destruct r0 as [[]|e1]; intros Hrun; simplify_eq; [|now left].
    unfold rejection_end. destruct (more_body message); [now left|].
    right. simpl. rewrite Hq'. auto. }
  destruct (classify ty), (state self) eqn:Hst; intros Hrun;
    try (left; now simplify_eq);
    try (apply Hrej; auto; fail);
    left.
  - now destruct (send_frame_frame message self self' r Hrun); revert Hrun;
      unfold send_frame; split_matches; intros; simplify_eq.
  - revert Hrun. unfold close_with_code. split_matches; intros; now simplify_eq.
  - revert Hrun. unfold close_with_code. split_matches; intros; now simplify_eq.
  - revert Hrun. unfold close_with_code. split_matches; intros; now simplify_eq.
  - revert Hrun. unfold close_with_code. split_matches; intros; now simplify_eq.
Qed.

Lemma moves_terminal (a b : ASGIWebsocketState) :
  moves a b = true -> terminal a = true -> terminal b = true.
Proof. destruct a, b; simpl; congruence. Qed.

Lemma run_app_queue (a : App) (base : list dict) :
  forall self : WebsocketMixin,
    (app_queue self = base
     \/ app_queue self = base ++ [disconnect_message] /\ terminal (state self) = true) ->
    app_queue (fst (run_app a self)) = base
    \/ app_queue (fst (run_app a self)) = base ++ [disconnect_message]
       /\ terminal (state (fst (run_app a self))) = true.
Proof.
  induction a as [| | |x|message k IH|f k IH|f k IH]; intros self Hinv; simpl;
    try exact Hinv.
  - destruct (asgi_send message self) as [self' r] eqn:Hrun.
    apply IH.
    destruct (asgi_send_step message self self' r Hrun) as (Hm & _).
    destruct (asgi_send_queue message self self' r Hrun) as [Hq | (Hq & Hs & Hfrom)].
    + destruct Hinv as [Hb | (Hb & Ht)]; [left; congruence|].
      right. split; [congruence | now apply (moves_terminal (state self))].
    + destruct Hinv as [Hb | (Hb & Ht)].
      * right. rewrite Hq, Hb, Hs. auto.
      * destruct Hfrom as [Hf | Hf]; rewrite Hf in Ht; discriminate Ht.
  - apply IH. exact Hinv.
  - apply IH. exact Hinv.
Qed.

End Queue.

(** X14.  [handle_asgi_app] queues the connect message first, and after
    it at most one disconnect message, whatever the application does; a
    disconnect is queued only once the state is [HTTPCLOSED], so the state
    is then [HTTPCLOSED] or [CLOSED] at the end. *)
Theorem disconnect_at_most_once `{E : Env} (app : Scope -> App) (self : WebsocketMixin) :
  app_queue (fst (handle_asgi_app app self)) = app_queue self ++ [connect_message]
  \/ (app_queue (fst (handle_asgi_app app self))
      = app_queue self ++ [connect_message; disconnect_message]
      /\ terminal (state (fst (handle_asgi_app app self))) = true).
Proof.
  rewrite handle_asgi_app_run. simpl fst.
  pose proof (run_app_queue (app (scope self)) (app_queue self ++ [connect_message])
                (with_put connect_message self) (or_introl eq_refl)) as Hrun.
  destruct (run_app (app (scope self)) (with_put connect_message self)) as [self1 o].
  simpl in Hrun. cbn [fst snd].
  destruct (after_app_frame o self1) as (_ & Hterm & Hq & _).
  rewrite Hq. destruct Hrun as [Hb | (Hb & Ht)]; [now left|].
  right. split; [now rewrite Hb, <- List.app_assoc | now apply Hterm].
Qed.

(** ** The handshake request *)

(** X15.  A handshake request whose query part is not ASCII makes
    [handle_websocket] raise [UnicodeEncodeError] before anything else
    happens: no scope is stored, the application is not run, nothing is sent
    or logged, and the state is not changed. *)
Theorem handle_websocket_bad_query `{E : Env}
    (app : Scope -> App) (event : Request) (self : WebsocketMixin)
    (path found query : string) :
  str_partition "?" (target event) = (path, found, query) ->
  forallb is_ascii (list_ascii_of_string query) = false ->
  handle_websocket app event self = (self, Raise UnicodeEncodeError).
Proof.
  intros Hp Hq. unfold handle_websocket, build_scope, encode_ascii, mbind, M_bind.
  now rewrite Hp, Hq.
Qed.

Lemma handle_websocket_bad_query_witness :
  handle_websocket (E := example_env) (fun _ => AppReturn)
    {| target := String "/" (String "?" (String (ascii_of_nat 233) ""));
       host := "example.com"; extra_headers := []; subprotocols := [] |} fresh
  = (fresh, Raise UnicodeEncodeError).
Proof.
  apply (handle_websocket_bad_query (E := example_env) (fun _ => AppReturn)
           {| target := String "/" (String "?" (String (ascii_of_nat 233) ""));
              host := "example.com"; extra_headers := []; subprotocols := [] |}
           fresh "/" "?" (String (ascii_of_nat 233) "")); reflexivity.
Defined.

(** X16.  [handle_websocket] ends in one of three ways.  When the
    query part of the target is not ASCII it raises [UnicodeEncodeError] and
    the object is as it was.  Otherwise the scope is built and stored and
    the application is run on it; then either [handle_websocket] returns,
    with the state no longer [HANDSHAKE], or the application raised an
    exception that is neither an [Exception] nor a cancellation, which
    [handle_websocket] raises in turn, leaving the object as the application
    left it. *)
Theorem handle_websocket_ends `{E : Env}
    (app : Scope -> App) (event : Request) (self final : WebsocketMixin) (r : result unit) :
  handle_websocket app event self = (final, r) ->
  (build_scope event self = Raise UnicodeEncodeError
   /\ r = Raise UnicodeEncodeError /\ final = self)
  \/ (exists (sc : Scope) (self1 : WebsocketMixin) (o : outcome),
        build_scope event self = Ok sc
        /\ run_app (app sc) (with_put connect_message (with_scope sc self)) = (self1, o)
        /\ ((forall x, o <> Aborted x) /\ r = Ok tt /\ state final <> HANDSHAKE
            \/ exists x, o = Aborted x /\ r = Raise (Fatal x) /\ final = self1)).
Proof.
  unfold handle_websocket, mbind, M_bind, set_scope.
  destruct (build_scope event self) as [sc|e] eqn:Hsc.
  - rewrite handle_asgi_app_run. simpl scope.
    destruct (run_app (app sc) (with_put connect_message (with_scope sc self)))
      as [self1 o] eqn:Hrun.
    simpl fst. simpl snd. intros Hres. simplify_eq. right. exists sc, self1, o.
    split; [reflexivity|]. split; [exact Hrun|].
    destruct o as [| | |x]; [left | left | left | right; eauto];
      (split; [discriminate|]); (split; [reflexivity|]);
      now apply (after_app_frame _ self1).
  - intros Hres. simplify_eq. left.
    assert (e = UnicodeEncodeError) as ->.
    { unfold build_scope, encode_ascii in Hsc.
      destruct (str_partition "?" (target event)) as [[path found] query].
      destruct (forallb is_ascii (list_ascii_of_string query)); congruence. }
    auto.
Qed.

Lemma handle_websocket_ends_witness :
  exists (sc : Scope) (self1 : WebsocketMixin) (o : outcome),
    build_scope (E := example_env) chat_request fresh = Ok sc
    /\ run_app (E := example_env) AppReturn (with_put connect_message (with_scope sc fresh))
       = (self1, o)
    /\ ((forall x, o <> Aborted x)
        /\ Ok tt = Ok tt
        /\ state (fst (handle_websocket (E := example_env) (fun _ => AppReturn)
                         chat_request fresh)) <> HANDSHAKE
        \/ exists x,
             o = Aborted x /\ Ok tt = Raise (Fatal x)
             /\ fst (handle_websocket (E := example_env) (fun _ => AppReturn)
                       chat_request fresh) = self1).
Proof.
  destruct (handle_websocket_ends (E := example_env) (fun _ => AppReturn) chat_request fresh
              (fst (handle_websocket (E := example_env) (fun _ => AppReturn)
                      chat_request fresh)) (Ok tt) eq_refl)
    as [(Hbad & _) | Hrun]; [discriminate Hbad | exact Hrun].
Defined.

(** ** The error log *)

Lemma run_app_error_log `{E : Env} (a : App) :
  forall self : WebsocketMixin,
    error_log (fst (run_app a self)) = error_log self
    /\ error_logger (fst (run_app a self)) = error_logger self.
Proof.
  induction a as [| | |x|message k IH|f k IH|f k IH]; intros self; simpl;
    try (split; reflexivity).
  - destruct (asgi_send message self) as [self' r] eqn:Hrun.
    destruct (asgi_send_step message self self' r Hrun) as (_ & _ & He & _ & Hl & _).
    destruct (IH r self') as (He' & Hl'). split; congruence.
  - apply (IH (with_response (f <$> response self) self)).
  - apply (IH (with_scope (f (scope self)) self)).
Qed.

(** X17.  Exceptions that [asgi_send] raises into the application are not
    logged by the mixin: the error log is written only at the end of
    [handle_asgi_app], once, when the application itself ended by raising
    and an error logger is configured. *)
Theorem error_logged_only_at_end `{E : Env} (app : Scope -> App) (self : WebsocketMixin) :
  (forall a : App, error_log (fst (run_app a self)) = error_log self)
  /\ error_log (fst (handle_asgi_app app self)) =
       error_log self ++
         match snd (run_app (app (scope self)) (with_put connect_message self)) with
         | Raised => if error_logger self then ["Error in ASGI Framework"] else []
         | Returned | Cancelled | Aborted _ => []
         end.
Proof.
  split; [intros a; apply run_app_error_log|].
  rewrite handle_asgi_app_run. simpl fst.
  destruct (run_app_error_log (app (scope self)) (with_put connect_message self))
    as (He & Hl).
  destruct (run_app (app (scope self)) (with_put connect_message self)) as [self1 o].
  simpl in *. unfold after_app, after_handshake_check, after_outcome.
  destruct o, (state self1) eqn:Hst; simpl; rewrite ?Hst; simpl; rewrite ?Hst; simpl;
    rewrite ?He, ?Hl, ?app_nil_r; try reflexivity;
    destruct (error_logger self); rewrite ?app_nil_r; reflexivity.
Qed.

(** ** An accepted connection from start to end *)

(** X18.  An accept, a binary send and a close with an integer code,
    taken in this order from [HANDSHAKE], all return; the events sent are
    the acceptance, one binary frame with the bytes and one close with the
    code, the state ends [CLOSED], and the access log has the one record of
    status 101. *)
Theorem accepted_connection `{E : Env}
    (accept send close : dict) (self : WebsocketMixin) (b : list byte) (code : Z) :
  state self = HANDSHAKE ->
  accept !! "type" = Some (VStr "websocket.accept") ->
  send !! "type" = Some (VStr "websocket.send") ->
  send !! "bytes" = Some (VBytes b) ->
  close !! "type" = Some (VStr "websocket.close") ->
  close !! "code" = Some (VInt code) ->
  exists final,
    run_app (AppSend accept (fun r1 =>
             AppSend send (fun r2 =>
             AppSend close (fun r3 =>
             match r1, r2, r3 with
             | Ok _, Ok _, Ok _ => AppReturn
             | _, _, _ => AppRaise
             end)))) self = (final, Returned)
    /\ sent final
       = sent self ++ [AcceptConnection [PerMessageDeflate];
                       MessageEvent (BytesMessage b); CloseConnection code]
    /\ state final = CLOSED
    /\ access_log final = access_log self ++ [(scope self, status_only 101)].
Proof.
  intros Hst Ha Hs Hb Hc Hcode.
  pose (s1 := accepted self).
  pose (s2 := with_sent (MessageEvent (BytesMessage b)) s1).
  pose (s3 := with_state CLOSED (with_sent (CloseConnection code) s2)).
  assert (H1 : asgi_send accept self = (s1, Ok tt)) by now apply asgi_send_accept.
  assert (H2 : asgi_send send s1 = (s2, Ok tt)).
  { rewrite asgi_send_send; [| exact Hs | reflexivity].
    rewrite (bytes_present send (VBytes b) Hb) by discriminate. now rewrite Hb. }
  assert (H3 : asgi_send close s2 = (s3, Ok tt)).
  { rewrite asgi_send_close; [| exact Hc | discriminate]. now rewrite Hcode. }
  exists s3. split.
  - simpl. rewrite H1, H2, H3. reflexivity.
  - simpl. rewrite <- !List.app_assoc. repeat split.
Qed.

Lemma accepted_connection_witness :
  exists final,
    run_app (E := example_env)
      (AppSend (msg "websocket.accept" []) (fun r1 =>
       AppSend (msg "websocket.send" [("bytes", VBytes [x68]%byte)]) (fun r2 =>
       AppSend (msg "websocket.close" [("code", VInt 1000)]) (fun r3 =>
       match r1, r2, r3 with
       | Ok _, Ok _, Ok _ => AppReturn
       | _, _, _ => AppRaise
       end)))) fresh = (final, Returned)
    /\ sent final
       = sent fresh ++ [AcceptConnection [PerMessageDeflate];
                        MessageEvent (BytesMessage [x68]%byte); CloseConnection 1000]
    /\ state final = CLOSED.
Proof.
  destruct (accepted_connection (E := example_env)
              (msg "websocket.accept" [])
              (msg "websocket.send" [("bytes", VBytes [x68]%byte)])
              (msg "websocket.close" [("code", VInt 1000)])
              fresh [x68]%byte 1000)
    as (final & Hrun & Hsent & Hstate & _); try reflexivity.
  exists final. auto.
Defined.
